(** * surf: navigation pipeline, event dispatcher and history

    A shallow embedding of the Go packages [event] (event/event.go),
    [browser] (browser/browser.go) and of the constructor [surf.NewBrowser],
    together with the properties of the navigation core: dispatch order,
    history discipline, error paths of the request pipeline, the
    meta-refresh timer, [Forms] and the shared headers jar.

    Go methods that mutate the receiver become computations in a small
    state monad whose second outcome is a run-time panic (a nil
    dereference or a write to a nil map). *)

From stdpp Require Import base option list gmap strings.
From Stdlib Require Import ZArith Lia.

Open Scope string_scope.
Open Scope list_scope.

(** ** Outcomes and the state monad *)

(** A Go call either returns or panics. *)
Inductive Outcome (A : Type) : Type :=
| Ret (a : A)
| Panic (msg : string).
Arguments Ret {A} a.
Arguments Panic {A} msg.

(** A computation over a mutable world [W]. *)
Definition M (W A : Type) : Type := W -> Outcome A * W.

Definition ret {W A} (a : A) : M W A := fun w => (Ret a, w).

Definition bind {W A B} (c : M W A) (k : A -> M W B) : M W B :=
  fun w =>
    match c w with
    | (Ret a, w') => k a w'
    | (Panic msg, w') => (Panic msg, w')
    end.

Definition panic {W A} (msg : string) : M W A := fun w => (Panic msg, w).
Definition get {W} : M W W := fun w => (Ret w, w).
Definition gets {W A} (f : W -> A) : M W A := fun w => (Ret (f w), w).
Definition modify {W} (f : W -> W) : M W unit := fun w => (Ret tt, f w).

(** stdpp's monad notations [x ← c; k] and [c;; k] for [M W]. *)
#[global] Instance M_ret {W} : MRet (M W) := fun A a => ret a.
#[global] Instance M_bind {W} : MBind (M W) := fun A B k c => bind c k.

(** The nil-pointer run-time error of Go. *)
Definition nil_deref : string :=
  "runtime error: invalid memory address or nil pointer dereference".

Definition nil_map_write : string :=
  "assignment to entry in nil map".

(** ** Errors

    Go's [error] is an interface value that may be nil. *)

(** Modelled from the spec: the [errors] package of the repository is not
    among the sources; the constructors are the kinds of the taxonomy of
    section 7 that the browser builds ([NewPageNotLoaded], [NewLocation],
    [NewElementNotFound], [NewAttributeNotFound]), each carrying its
    formatted message.  [UrlError] is the [*url.Error] in which the http
    client wraps a failed exchange, [TransportFailure] a failure of the
    network itself and [HandlerFailure] an error made by an event handler. *)
Inductive Error : Type :=
| PageNotLoaded (msg : string)
| Location (msg : string)
| ElementNotFound (msg : string)
| AttributeNotFound (msg : string)
| InvalidURL (msg : string)
| TransportFailure (msg : string)
| HandlerFailure (msg : string)
| UrlError (op url : string) (err : Error).

Abbreviation error := (option Error).

Fixpoint Error_string (e : Error) : string :=
  match e with
  | PageNotLoaded m | Location m | ElementNotFound m | AttributeNotFound m
  | InvalidURL m | TransportFailure m | HandlerFailure m => m
  | UrlError op url err => op +:+ " " +:+ url +:+ ": " +:+ Error_string err
  end.

(** ** Package event *)

Module event.

(** [type Event int16] with its seven constants. *)
Inductive Event : Type :=
| PreRequest
| PostRequest
| Click
| Submit
| RecordStart
| RecordStop
| RecordReplay.

(** The [iota] value of each constant. *)
Definition Event_code (e : Event) : Z :=
  match e with
  | PreRequest => 0
  | PostRequest => 1
  | Click => 2
  | Submit => 3
  | RecordStart => 4
  | RecordStop => 5
  | RecordReplay => 6
  end%Z.

Definition Event_of_code (z : Z) : option Event :=
  match z with
  | 0 => Some PreRequest
  | 1 => Some PostRequest
  | 2 => Some Click
  | 3 => Some Submit
  | 4 => Some RecordStart
  | 5 => Some RecordStop
  | 6 => Some RecordReplay
  | _ => None
  end%Z.

#[global] Instance Event_eq_dec : EqDecision Event.
Proof. solve_decision. Defined.

#[global] Instance Event_countable : Countable Event.
Proof.
  refine (inj_countable Event_code Event_of_code _).
  intros []; reflexivity.
Defined.

Section Dispatcher.
(** [W] is the state a handler can reach, [Any] the dynamic type
    [interface{}] of the sender and of the event arguments. *)
Context {W Any : Type}.

(** [type HandlerFunc func(e Event, sender, args interface{}) error] *)
Definition HandlerFunc : Type := Event -> Any -> Any -> M W error.

(** [type Handler interface { HandleEvent(...) error }] *)
Record Handler : Type := { HandleEvent : HandlerFunc }.

(** [type Dispatcher struct { handlers HandlerMap }] with
    [type HandlerMap map[Event][]HandlerFunc]. *)
Record Dispatcher : Type := { handlers : gmap Event (list HandlerFunc) }.

Definition NewDispatcher : Dispatcher := {| handlers := ∅ |}.

(** [ed.handlers[e]]: a missing key reads as the nil slice. *)
Definition bound (ed : Dispatcher) (e : Event) : list HandlerFunc :=
  default [] (handlers ed !! e).

Definition OnFunc (ed : Dispatcher) (e : Event) (handler : HandlerFunc)
  : Dispatcher :=
  {| handlers := <[e := bound ed e ++ [handler]]> (handlers ed) |}.

Definition On (ed : Dispatcher) (e : Event) (handler : Handler)
  : Dispatcher :=
  {| handlers :=
       <[e := bound ed e ++
              [fun e sender args => HandleEvent handler e sender args]]>
         (handlers ed) |}.

(** The [for _, handler := range ed.handlers[e]] loop of [Do]. *)
Fixpoint range_handlers (hs : list HandlerFunc) (e : Event)
         (sender args : Any) : M W error :=
  match hs with
  | [] => ret None
  | handler :: rest =>
      err ← handler e sender args;
      match err with
      | Some _ => ret err
      | None => range_handlers rest e sender args
      end
  end.

Definition Do (ed : Dispatcher) (e : Event) (sender args : Any)
  : M W error :=
  range_handlers (bound ed e) e sender args.

End Dispatcher.

Arguments HandlerFunc : clear implicits.
Arguments Handler : clear implicits.
Arguments Dispatcher : clear implicits.

(** *** Observing a dispatch

    To speak about which handlers a dispatch invokes, a handler is wrapped
    so that every invocation is written, with what it received and what it
    answered, to a journal kept beside the state. *)

Record Call (Any : Type) : Type := {
  call_handler : nat;
  call_event : Event;
  call_sender : Any;
  call_args : Any;
  call_result : Outcome error
}.
Arguments call_handler {Any} _.
Arguments call_event {Any} _.
Arguments call_sender {Any} _.
Arguments call_args {Any} _.
Arguments call_result {Any} _.

Definition probe {W Any} (i : nat) (h : HandlerFunc W Any)
  : HandlerFunc (W * list (Call Any)) Any :=
  fun e sender args wl =>
    let '(r, w') := h e sender args (fst wl) in
    (r, (w', snd wl ++ [{| call_handler := i; call_event := e;
                           call_sender := sender; call_args := args;
                           call_result := r |}])).

(** The handler answered nil. *)
Definition quiet {Any} (c : Call Any) : Prop := call_result c = Ret None.

(** The handler received this event, this sender and these arguments. *)
Definition carries {Any} (e : Event) (sender args : Any) (c : Call Any) : Prop :=
  call_event c = e /\ call_sender c = sender /\ call_args c = args.

(** Binding a list of handlers to one event, first to last. *)
Definition bind_all {W Any} (ed : Dispatcher W Any) (e : Event)
           (hs : list (HandlerFunc W Any)) : Dispatcher W Any :=
  foldl (fun d h => OnFunc d e h) ed hs.

End event.

(** ** Collaborators of the browser: net/url, net/http, goquery, time *)

(** A parsed [*url.URL], identified with the text [u.String()] renders. *)
Definition URL : Type := string.

(** The value of an [http.Header], a [map[string][]string]. *)
Abbreviation Header := (gmap string (list string)).

(** [url.Values] has the same representation. *)
Abbreviation Values := (gmap string (list string)).

(** Maps are reference values in Go: a header map lives in a store and is
    named by its address. *)
Definition loc : Type := nat.

Module http.

(** [*http.Request]: [Header] holds the address of the header map, [None]
    being the nil map; [Body] the contents of the reader, if any. *)
Record Request : Type := {
  Method : string;
  URL_ : URL;
  Header_ : option loc;
  Body : option string
}.

(** [*http.Response] *)
Record Response : Type := {
  StatusCode : Z;
  RespHeader : Header;
  RespBody : string
}.

End http.

Module goquery.

(** An element of the parsed page: its tag and its attributes. *)
Record Node : Type := {
  node_tag : string;
  node_attrs : list (string * string)
}.

(** [*goquery.Selection]: the matched elements in document order. *)
Definition Selection : Type := list Node.

(** [*goquery.Document]: the elements of the page in document order. *)
Definition Document : Type := list Node.

Definition Length (sel : Selection) : nat := length sel.

Fixpoint attr_lookup (name : string) (attrs : list (string * string))
  : option string :=
  match attrs with
  | [] => None
  | (k, v) :: rest => if String.eqb k name then Some v else attr_lookup name rest
  end.

(** [sel.Attr(name)]: the attribute of the first element of the selection;
    [None] stands for [ok == false]. *)
Definition Attr (sel : Selection) (name : string) : option string :=
  match sel with
  | [] => None
  | n :: _ => attr_lookup name (node_attrs n)
  end.

(** [sel.Is(tag)] for the selector of a tag name, the only kind the
    browser asks about: some element of the selection has that tag. *)
Definition Is (sel : Selection) (tag : string) : bool :=
  existsb (fun n => String.eqb (node_tag n) tag) sel.

End goquery.

Module time.

(** A [*time.Timer] is armed for a duration (in nanoseconds) until it is
    stopped or delivers on its channel. *)
Inductive TimerStatus : Type :=
| Armed (d : Z)
| Stopped
| Fired.

End time.

(** What the browser asks of the libraries it is built on.  These functions
    belong to Go's standard library and to goquery, not to the repository;
    the development is parametric in them. *)
Record Collaborators : Type := {
  (** [url.Parse] *)
  url_Parse : string -> URL + Error;
  (** [u.ResolveReference(ref)] *)
  url_ResolveReference : URL -> URL -> URL;
  (** [ul.RawQuery = q] *)
  url_SetRawQuery : URL -> string -> URL;
  (** [data.Encode()] of [url.Values] *)
  url_Encode : Values -> string;
  (** [time.ParseDuration], in nanoseconds; [None] is a parse error *)
  time_ParseDuration : string -> option Z;
  (** [goquery.NewDocumentFromResponse] *)
  goquery_NewDocumentFromResponse : http.Response -> goquery.Document + Error;
  (** [doc.Find(expr)], the CSS selector engine *)
  goquery_Find : goquery.Document -> string -> goquery.Selection;
  (** [base64.StdEncoding.EncodeToString] *)
  base64_EncodeToString : string -> string;
  (** [fm.Action()] and [fm.Method()] of the form built on a selection
      (browser/form.go is not among the sources) *)
  form_Action : goquery.Selection -> URL;
  form_Method : goquery.Selection -> string
}.

(** ** Package jar *)

Module jar.

(** Modelled from the spec: [jar.State] is not among the sources.  Section 3
    of the spec: "Session State — immutable triple: (request description,
    response description, document handle)".  The three fields are
    pointers in the browser's code ([bow.state.Request != nil]), hence
    options. *)
Record State : Type := {
  Request : option http.Request;
  Response : option http.Response;
  Dom : option goquery.Document
}.

(** Modelled from the spec: [jar.NewHistoryState], the constructor of the
    triple from (request, response, document handle). *)
Definition NewHistoryState (req : http.Request) (resp : http.Response)
           (dom : goquery.Document) : State :=
  {| Request := Some req; Response := Some resp; Dom := Some dom |}.

(** Modelled from the spec: the [jar.History] held by the browser is not
    among the sources.  Section 3: "ordered sequence of Session States ...
    (or equivalently a push/pop stack)"; section 4.2: [push] appends,
    [pop] "returns and removes the most recently pushed state, but fails
    (returns empty) if only one entry remains", [len].  An entry is a
    [*jar.State], which may be nil.  The most recent entry is the head. *)
Definition History : Type := list (option State).

Definition Len (h : History) : nat := length h.

Definition Push (h : History) (p : option State) : History := p :: h.

Definition Pop (h : History) : option State * History :=
  match h with
  | p :: (_ :: _) as rest => (p, rest)
  | _ => (None, h)
  end.

(** Modelled from the spec: [jar.NewMemoryHistory], an empty history. *)
Definition NewMemoryHistory : History := [].

End jar.

(** ** Package browser *)

Module browser.
Import event.

(** [type Attribute int] with its three constants. *)
Inductive Attribute : Type :=
| SendReferer
| MetaRefreshHandling
| FollowRedirects.

Definition Attribute_code (a : Attribute) : Z :=
  match a with
  | SendReferer => 0
  | MetaRefreshHandling => 1
  | FollowRedirects => 2
  end%Z.

Definition Attribute_of_code (z : Z) : option Attribute :=
  match z with
  | 0 => Some SendReferer
  | 1 => Some MetaRefreshHandling
  | 2 => Some FollowRedirects
  | _ => None
  end%Z.

#[global] Instance Attribute_eq_dec : EqDecision Attribute.
Proof. solve_decision. Defined.

#[global] Instance Attribute_countable : Countable Attribute.
Proof.
  refine (inj_countable Attribute_code Attribute_of_code _).
  intros []; reflexivity.
Defined.

(** [type AttributeMap map[Attribute]bool] *)
Abbreviation AttributeMap := (gmap Attribute bool).

(** [type LogLevel int8] *)
Definition LogLevel : Type := Z.
Definition LogLevelDebug : LogLevel := 0%Z.
Definition LogLevelInfo : LogLevel := 1%Z.
Definition LogLevelError : LogLevel := 2%Z.

(** [type Authorization struct] *)
Record Authorization : Type := {
  Username : string;
  Password : string
}.

(** A [*log.Logger]. *)
Inductive Logger : Type := StdLogger.

(** The fields of [type Browser struct].  The event dispatcher the struct
    embeds is passed beside the world (see [World]); the cookie jar, the
    bookmarks and the recorder take no part in the pipeline below. *)
Record Browser : Type := {
  (** [state *jar.State], nil until a page has loaded *)
  state : option jar.State;
  userAgent : string;
  history : jar.History;
  (** [headers http.Header], the address of the shared map or nil *)
  headers : option loc;
  attributes : AttributeMap;
  (** [refresh *time.Timer], the address of the timer or nil *)
  refresh : option nat;
  auth : Authorization;
  logger : option Logger;
  logLevel : LogLevel
}.

(** An argument of a log line. *)
Inductive LogArg : Type :=
| LStr (s : string)
| LInt (z : Z)
| LDuration (ns : Z).

(** What the browser does to the outside, in the order it does it. *)
Inductive Effect : Type :=
| (** [logger.Printf(format, args...)] *)
  ELog (format : string) (args : list LogArg)
| (** [logger.Println(line)] *)
  ELogln (line : string)
| (** a request goes out on the network, with the header values it
      carries at that moment *)
  ESend (req : http.Request) (sent : option Header)
| (** [time.NewTimer(d)] made timer [t] *)
  ETimerNew (t : nat) (d : Z)
| (** [t.Stop()] *)
  ETimerStop (t : nat).

(** One answer of the network to one request. *)
Inductive Reply : Type :=
| (** the round trip fails *)
  ReplyFail (err : Error)
| (** a 3xx response with a [Location] header *)
  ReplyRedirect (code : Z) (location : URL)
| (** any other response *)
  ReplyPage (resp : http.Response).

(** The browser and what surrounds it: the store of header maps, the
    timers made so far, the answers the network is going to give to the
    coming requests, and the effects so far. *)
Record World : Type := {
  bow : Browser;
  heap : list Header;
  timers : list time.TimerStatus;
  net : list Reply;
  trace : list Effect
}.

(** [interface{}] as the browser's events use it. *)
Inductive Value : Type :=
| VNil
| VBrowser
| VRequest (req : http.Request)
| VResponse (resp : http.Response)
| VURL (u : URL)
| VValues (v : Values)
| VForm (sel : goquery.Selection).

(** Field updates. *)
Definition set_bow (f : Browser -> Browser) (w : World) : World :=
  {| bow := f (bow w); heap := heap w; timers := timers w; net := net w;
     trace := trace w |}.

Definition with_state (p : option jar.State) (b : Browser) : Browser :=
  {| state := p; userAgent := userAgent b; history := history b;
     headers := headers b; attributes := attributes b; refresh := refresh b;
     auth := auth b; logger := logger b; logLevel := logLevel b |}.

Definition with_history (h : jar.History) (b : Browser) : Browser :=
  {| state := state b; userAgent := userAgent b; history := h;
     headers := headers b; attributes := attributes b; refresh := refresh b;
     auth := auth b; logger := logger b; logLevel := logLevel b |}.

Definition with_refresh (r : option nat) (b : Browser) : Browser :=
  {| state := state b; userAgent := userAgent b; history := history b;
     headers := headers b; attributes := attributes b; refresh := r;
     auth := auth b; logger := logger b; logLevel := logLevel b |}.

Definition with_attributes (a : AttributeMap) (b : Browser) : Browser :=
  {| state := state b; userAgent := userAgent b; history := history b;
     headers := headers b; attributes := a; refresh := refresh b;
     auth := auth b; logger := logger b; logLevel := logLevel b |}.

Definition set_heap (h : list Header) (w : World) : World :=
  {| bow := bow w; heap := h; timers := timers w; net := net w;
     trace := trace w |}.

Definition set_timers (t : list time.TimerStatus) (w : World) : World :=
  {| bow := bow w; heap := heap w; timers := t; net := net w;
     trace := trace w |}.

Definition set_net (n : list Reply) (w : World) : World :=
  {| bow := bow w; heap := heap w; timers := timers w; net := n;
     trace := trace w |}.

Definition emit (ev : Effect) (w : World) : World :=
  {| bow := bow w; heap := heap w; timers := timers w; net := net w;
     trace := trace w ++ [ev] |}.

(** [bow.attributes[a]]: a missing key reads as false. *)
Definition attribute (w : World) (a : Attribute) : bool :=
  default false (attributes (bow w) !! a).

(** *** time.Timer *)

(** [time.NewTimer(d)] *)
Definition NewTimer (d : Z) : M World nat :=
  fun w =>
    let t := length (timers w) in
    (Ret t, emit (ETimerNew t d) (set_timers (timers w ++ [time.Armed d]) w)).

Definition stop_status (s : time.TimerStatus) : time.TimerStatus :=
  match s with
  | time.Armed _ => time.Stopped
  | _ => s
  end.

(** [t.Stop()]: an armed timer will never deliver; a timer that has
    delivered or was stopped stays as it is. *)
Definition Stop (t : nat) : M World unit :=
  modify (fun w => emit (ETimerStop t)
                     (set_timers (alter stop_status t (timers w)) w)).

(** *** http.Header *)

(** [h[key] = append(h[key], value)] *)
Definition add_value (key value : string) (m : Header) : Header :=
  <[key := default [] (m !! key) ++ [value]]> m.

(** The values a header map holds for a key. *)
Definition values (m : Header) (key : string) : list string :=
  default [] (m !! key).

(** [h.Add(key, value)] on the map at address [h].  The keys the browser
    adds are in canonical form already. *)
Definition Header_Add (h : option loc) (key value : string) : M World unit :=
  fun w =>
    match h with
    | None => (Panic nil_map_write, w)
    | Some l =>
        match heap w !! l with
        | None => (Panic nil_deref, w)
        | Some m =>
            (Ret tt, set_heap (<[l := add_value key value m]> (heap w)) w)
        end
    end.

(** The header values a request carries. *)
Definition header_of (w : World) (req : http.Request) : option Header :=
  l ← http.Header_ req; heap w !! l.

(** *** Logging *)

Definition newline : string := String (Ascii.ascii_of_nat 10) EmptyString.

Definition Printf (format : string) (a : list LogArg) : M World unit :=
  modify (emit (ELog format a)).

Definition logDebug (msg : string) (a : list LogArg) : M World unit :=
  fun w =>
    if bool_decide (logger (bow w) ≠ None)
       && (LogLevelDebug <=? logLevel (bow w))%Z
    then Printf (msg +:+ newline) a w
    else (Ret tt, w).

Definition logInfo (msg : string) (a : list LogArg) : M World unit :=
  fun w =>
    if bool_decide (logger (bow w) ≠ None)
       && (LogLevelInfo <=? logLevel (bow w))%Z
    then Printf (msg +:+ newline) a w
    else (Ret tt, w).

Definition logError (e : Error) : M World error :=
  fun w =>
    if bool_decide (logger (bow w) ≠ None)
       && (LogLevelError <=? logLevel (bow w))%Z
    then (Ret (Some e), emit (ELogln (Error_string e)) w)
    else (Ret (Some e), w).

(** What stopping the refresh timer, lines 645 to 647 of [httpRequest],
    makes of the world. *)
Definition refresh_stopped (w : World) : World :=
  match refresh (bow w) with
  | Some t => emit (ETimerStop t) (set_timers (alter stop_status t (timers w)) w)
  | None => w
  end.

Section Pipeline.
Context (lib : Collaborators).

(** The dispatcher embedded in the browser.  Its handlers act on the
    world, the browser included; they are Go closures and may do there
    whatever the exported methods allow. *)
Abbreviation Handlers := (Dispatcher World Value).

(** [basicAuth] *)
Definition basicAuth (username password : string) : string :=
  let auth := username +:+ ":" +:+ password in
  base64_EncodeToString lib auth.

(** [bow.Find(expr)] is [bow.state.Dom.Find(expr)]. *)
Definition Find (expr : string) : M World goquery.Selection :=
  fun w =>
    match state (bow w) with
    | None => (Panic nil_deref, w)
    | Some st =>
        match jar.Dom st with
        | None => (Panic nil_deref, w)
        | Some dom => (Ret (goquery_Find lib dom expr), w)
        end
    end.

(** [bow.Url()] is [bow.state.Request.URL]. *)
Definition Url : M World URL :=
  fun w =>
    match state (bow w) with
    | None => (Panic nil_deref, w)
    | Some st =>
        match jar.Request st with
        | None => (Panic nil_deref, w)
        | Some req => (Ret (http.URL_ req), w)
        end
    end.

(** [bow.ResolveUrl(u)] *)
Definition ResolveUrl (u : URL) : M World URL :=
  base ← Url; mret (url_ResolveReference lib base u).

Definition SetAttribute (a : Attribute) (v : bool) : M World unit :=
  modify (fun w => set_bow (with_attributes (<[a := v]> (attributes (bow w)))) w).

Definition AddRequestHeader (name value : string) : M World unit :=
  w ← get; Header_Add (headers (bow w)) name value.

(** [shouldRedirect], the client's [CheckRedirect]. *)
Definition shouldRedirect (req : http.Request) (via : list http.Request)
  : M World error :=
  fun w =>
    if attribute w FollowRedirects then (Ret None, w)
    else (Ret (Some (Location ("Redirects are disabled. Cannot follow '"
                                 +:+ http.URL_ req +:+ "'."))), w).

(** [*http.Client], reduced to its redirect policy. *)
Record Client : Type := {
  CheckRedirect : http.Request -> list http.Request -> M World error
}.

(** [buildClient] *)
Definition buildClient : Client := {| CheckRedirect := shouldRedirect |}.

(** The request that follows a redirect: a POST or PUT is repeated as a
    GET without body, towards the new location. *)
Definition redirected (req : http.Request) (location : URL) : http.Request :=
  {| http.Method :=
       if String.eqb (http.Method req) "POST"
          || String.eqb (http.Method req) "PUT"
       then "GET" else http.Method req;
     http.URL_ := location;
     http.Header_ := http.Header_ req;
     http.Body := None |}.

(** One round trip: the request goes out, with the header values it
    carries now, and the network is left with its remaining answers. *)
Definition round_trip (req : http.Request) (rest : list Reply)
  : M World unit :=
  modify (fun w => set_net rest (emit (ESend req (header_of w req)) w)).

(** [client.Do(req)] of net/http, as the contract of section 6 of the
    spec describes the transport: it performs the exchange and, before
    it follows a redirect, asks [CheckRedirect] about that hop; when the
    policy objects, or the network fails, the exchange ends with the
    error wrapped in a [*url.Error].  The recursion is on the answers
    the network gives, one per hop; a network with no answer left
    closes the connection. *)
Fixpoint follow_redirects (c : Client) (answers : list Reply)
         (req : http.Request) (via : list http.Request)
  : M World (http.Response + Error) :=
  match answers with
  | [] =>
      round_trip req [];;
      mret (inr (UrlError (http.Method req) (http.URL_ req)
                   (TransportFailure "EOF")))
  | ReplyPage resp :: rest =>
      round_trip req rest;;
      mret (inl resp)
  | ReplyFail err :: rest =>
      round_trip req rest;;
      mret (inr (UrlError (http.Method req) (http.URL_ req) err))
  | ReplyRedirect _ location :: rest =>
      round_trip req rest;;
      let nreq := redirected req location in
      err ← CheckRedirect c nreq (via ++ [req]);
      match err with
      | Some e => mret (inr (UrlError (http.Method req) location e))
      | None => follow_redirects c rest nreq (via ++ [req])
      end
  end.

Definition Client_Do (c : Client) (req : http.Request)
  : M World (http.Response + Error) :=
  w ← get; follow_redirects c (net w) req [].

(** [doPreRequest] and [doPostRequest] *)
Definition doPreRequest (ed : Handlers) (req : http.Request) : M World error :=
  logDebug "Doing event event.PreRequest." [];;
  Do ed PreRequest VBrowser (VRequest req).

Definition doPostRequest (ed : Handlers) (resp : http.Response)
  : M World error :=
  logDebug "Doing event event.PostRequest." [];;
  Do ed PostRequest VBrowser (VResponse resp).

(** [handleMetaRefresh].  The goroutine it starts waits for the timer
    and reloads the page; see [refresh_goroutine] below. *)
Definition handleMetaRefresh : M World unit :=
  w ← get;
  if attribute w MetaRefreshHandling then
    sel ← Find "meta[http-equiv='refresh']";
    if bool_decide (0 < goquery.Length sel) then
      match goquery.Attr sel "content" with
      | Some attr =>
          match time_ParseDuration lib (attr +:+ "s") with
          | Some dur =>
              logDebug "Creating %d second timer for meta refresh."
                       [LDuration dur];;
              t ← NewTimer dur;
              modify (set_bow (with_refresh (Some t)))
          | None => mret tt
          end
      | None => mret tt
      end
    else mret tt
  else mret tt.

(** Lines 645 to 649 of [httpRequest]: the refresh timer is stopped,
    then the transport is contacted. *)
Definition contact_transport (req : http.Request)
  : M World (http.Response + Error) :=
  w ← get;
  match refresh (bow w) with
  | Some t => Stop t
  | None => mret tt
  end;;
  logInfo "Sending request. %s %s"
          [LStr (http.Method req); LStr (http.URL_ req)];;
  Client_Do buildClient req.

(** Lines 659 to 661 of [httpRequest]: the state that is current goes
    onto the history, the new state takes its place, and the refresh
    directive of the new page is handled. *)
Definition commit (req : http.Request) (resp : http.Response)
           (dom : goquery.Document) : M World unit :=
  w ← get;
  modify (set_bow (with_history (jar.Push (history (bow w)) (state (bow w)))));;
  modify (set_bow (with_state (Some (jar.NewHistoryState req resp dom))));;
  handleMetaRefresh.

(** [httpRequest] *)
Definition httpRequest (ed : Handlers) (req : http.Request) : M World error :=
  err ← doPreRequest ed req;
  match err with
  | Some e => logError e
  | None =>
      r ← contact_transport req;
      match r with
      | inr e => logError e
      | inl resp =>
          logInfo "Received %d response." [LInt (http.StatusCode resp)];;
          match goquery_NewDocumentFromResponse lib resp with
          | inr e => logError e
          | inl dom =>
              commit req resp dom;;
              err ← doPostRequest ed resp;
              match err with
              | Some e => logError e
              | None => mret None
              end
          end
      end
  end.

(** The world in which the new page is committed, given the world [w2] in
    which the transport answered: the response has been logged (line 653)
    and the commit has run. *)
Definition committed (req : http.Request) (resp : http.Response)
           (dom : goquery.Document) (w2 : World) : World :=
  snd (commit req resp dom
         (snd (logInfo "Received %d response." [LInt (http.StatusCode resp)] w2))).

(** [http.NewRequest(method, urlStr, nil)]: the address of a request
    with a fresh, empty header map. *)
Definition NewRequest (method urlStr : string)
  : M World (http.Request + Error) :=
  match url_Parse lib urlStr with
  | inr err => mret (inr err)
  | inl u =>
      fun w =>
        (Ret (inl {| http.Method := method; http.URL_ := u;
                     http.Header_ := Some (length (heap w));
                     http.Body := None |}),
         set_heap (heap w ++ [∅]) w)
  end.

(** [buildRequest]: [req.Header = bow.headers] stores the address of
    the browser's own map in the request. *)
Definition buildRequest (method : string) (u : URL) (ref : option URL)
  : M World (http.Request + Error) :=
  r ← NewRequest method u;
  match r with
  | inr err => mret (inr err)
  | inl req0 =>
      w ← get;
      let req := {| http.Method := http.Method req0;
                    http.URL_ := http.URL_ req0;
                    http.Header_ := headers (bow w);
                    http.Body := http.Body req0 |} in
      Header_Add (http.Header_ req) "User-Agent" (userAgent (bow w));;
      logDebug "Setting User-Agent header to %s." [LStr (userAgent (bow w))];;
      match ref with
      | Some r =>
          if attribute w SendReferer then
            logDebug "Setting Referer header to %s." [LStr r];;
            Header_Add (http.Header_ req) "Referer" r
          else mret tt
      | None => mret tt
      end;;
      (if negb (String.eqb (Username (auth (bow w))) "") then
         let a := basicAuth (Username (auth (bow w)))
                            (Password (auth (bow w))) in
         logDebug "Setting Authorization header to %s." [LStr a];;
         Header_Add (http.Header_ req) "Authorization" ("Basic " +:+ a)
       else mret tt);;
      mret (inl req)
  end.

(** What [buildRequest] adds to the header map it is given. *)
Definition built (w : World) (ref : option URL) (m : Header) : Header :=
  let m1 := add_value "User-Agent" (userAgent (bow w)) m in
  let m2 := match ref with
            | Some r => if attribute w SendReferer
                        then add_value "Referer" r m1 else m1
            | None => m1
            end in
  if negb (String.eqb (Username (auth (bow w))) "")
  then add_value "Authorization"
         ("Basic " +:+ basicAuth (Username (auth (bow w)))
                                 (Password (auth (bow w)))) m2
  else m2.

(** [httpGET] *)
Definition httpGET (ed : Handlers) (u : URL) (ref : option URL)
  : M World error :=
  r ← buildRequest "GET" u ref;
  match r with
  | inr err => mret (Some err)
  | inl req => httpRequest ed req
  end.

(** [httpPOST]; [body] is the contents of the reader, if there is one. *)
Definition httpPOST (ed : Handlers) (u : URL) (ref : option URL)
           (contentType : string) (body : option string) : M World error :=
  r ← buildRequest "POST" u ref;
  match r with
  | inr err => mret (Some err)
  | inl req =>
      let req := {| http.Method := http.Method req;
                    http.URL_ := http.URL_ req;
                    http.Header_ := http.Header_ req;
                    http.Body := body |} in
      Header_Add (http.Header_ req) "Content-Type" contentType;;
      httpRequest ed req
  end.

(** [Open], [OpenForm], [Post], [PostForm] *)
Definition Open (ed : Handlers) (u : string) : M World error :=
  match url_Parse lib u with
  | inr err => mret (Some err)
  | inl ur => httpGET ed ur None
  end.

Definition OpenForm (ed : Handlers) (u : string) (data : Values)
  : M World error :=
  match url_Parse lib u with
  | inr err => mret (Some err)
  | inl ul => Open ed (url_SetRawQuery lib ul (url_Encode lib data))
  end.

Definition Post (ed : Handlers) (u contentType : string)
           (body : option string) : M World error :=
  match url_Parse lib u with
  | inr err => mret (Some err)
  | inl ur => httpPOST ed ur None contentType body
  end.

Definition PostForm (ed : Handlers) (u : string) (data : Values)
  : M World error :=
  Post ed u "application/x-www-form-urlencoded" (Some (url_Encode lib data)).

(** [Back] *)
Definition Back : M World bool :=
  w ← get;
  if bool_decide (1 < jar.Len (history (bow w))) then
    modify (fun w => let '(p, h) := jar.Pop (history (bow w)) in
                     set_bow (with_state p) (set_bow (with_history h) w));;
    u ← Url;
    logDebug "Back called. New page is %s." [LStr u];;
    mret true
  else mret false.

(** [Reload] *)
Definition Reload (ed : Handlers) : M World error :=
  w ← get;
  match state (bow w) with
  | None => panic nil_deref
  | Some st =>
      match jar.Request st with
      | Some req =>
          logDebug "Reloading page %s." [LStr (http.URL_ req)];;
          httpRequest ed req
      | None =>
          mret (Some (PageNotLoaded
                        "Cannot reload, the previous request failed."))
      end
  end.

(** The body of the goroutine of [handleMetaRefresh],
    [<-bow.refresh.C; bow.Reload()]: when the timer in [bow.refresh] is
    still armed it delivers and the page is reloaded. *)
Definition refresh_goroutine (ed : Handlers) : M World unit :=
  w ← get;
  match refresh (bow w) with
  | Some t =>
      match timers w !! t with
      | Some (time.Armed _) =>
          modify (fun w => set_timers (<[t := time.Fired]> (timers w)) w);;
          Reload ed;;
          mret tt
      | _ => mret tt
      end
  | None => mret tt
  end.

(** A [*Form]: browser/form.go is not among the sources; a form is the
    selection it was built on together with the handlers bound to it. *)
Record Form : Type := {
  form_selection : goquery.Selection;
  form_handlers : Handlers
}.

Definition NewForm (s : goquery.Selection) : Form :=
  {| form_selection := s; form_handlers := NewDispatcher |}.

(** [newForm]: the form with the browser's [Submit] handler bound. *)
Definition newForm (ed : Handlers) (s : goquery.Selection) : Form :=
  let form := NewForm s in
  {| form_selection := form_selection form;
     form_handlers :=
       OnFunc (form_handlers form) Submit
         (fun _ sender args =>
            match sender with
            | VForm fm =>
                action ← ResolveUrl (form_Action lib fm);
                match args with
                | VValues values =>
                    logInfo "Submitting form %s %s %#v."
                            [LStr (form_Method lib fm);
                             LStr (form_Action lib fm);
                             LStr (url_Encode lib values)];;
                    if String.eqb (form_Method lib fm) "GET"
                    then OpenForm ed action values
                    else PostForm ed action values
                | _ => panic "interface conversion"
                end
            | _ => panic "interface conversion"
            end) |}.

(** [sel.Each(f)]: [f] runs on every element in document order; the
    variable its closure updates is threaded as [acc]. *)
Definition Each {A} (sel : goquery.Selection)
           (f : nat -> goquery.Selection -> A -> A) (acc : A) : A :=
  foldl (fun acc '(i, n) => f i [n] acc) acc (imap pair sel).

(** [Forms]: [None] is the nil slice, and a nil entry of the slice of
    [Submittable] is [None]. *)
Definition Forms (ed : Handlers) : M World (option (list (option Form))) :=
  sel ← Find "form";
  let len := goquery.Length sel in
  if bool_decide (len = 0) then mret None
  else
    let forms := replicate len None in
    mret (Some (Each sel (fun _ s forms => forms ++ [Some (newForm ed s)])
                     forms)).

End Pipeline.

(** *** Elements and assets of the current page *)

(** The assets of browser/assets.go, which is not among the sources: an
    asset is what its constructor receives. *)
Record Link : Type := NewLinkAsset {
  link_URL : URL; link_ID : string; link_Text : string
}.

Record Image : Type := NewImageAsset {
  image_URL : URL; image_ID : string; image_Alt : string; image_Title : string
}.

Record Stylesheet : Type := NewStylesheetAsset {
  sheet_URL : URL; sheet_ID : string; sheet_Media : string; sheet_Type : string
}.

Record Script : Type := NewScriptAsset {
  script_URL : URL; script_ID : string; script_Type : string
}.

Section Page.
Context (lib : Collaborators).

(** [s.Text()], the text an element holds, is goquery's. *)
Context (Text : goquery.Selection -> string).

(** [bow.StatusCode()] is [bow.state.Response.StatusCode]. *)
Definition StatusCode : M World Z :=
  fun w =>
    match state (bow w) with
    | None => (Panic nil_deref, w)
    | Some st =>
        match jar.Response st with
        | None => (Panic nil_deref, w)
        | Some resp => (Ret (http.StatusCode resp), w)
        end
    end.

(** [bow.ResponseHeaders()] is [bow.state.Response.Header]. *)
Definition ResponseHeaders : M World Header :=
  fun w =>
    match state (bow w) with
    | None => (Panic nil_deref, w)
    | Some st =>
        match jar.Response st with
        | None => (Panic nil_deref, w)
        | Some resp => (Ret (http.RespHeader resp), w)
        end
    end.

(** [ResolveStringUrl]: the URL is parsed before the page is looked at. *)
Definition ResolveStringUrl (u : string) : M World (string * error) :=
  match url_Parse lib u with
  | inr err => mret ("", Some err)
  | inl pu =>
      base ← Url;
      mret (url_ResolveReference lib base pu, None)
  end.

(** [attrOrDefault] *)
Definition attrOrDefault (name def : string) (sel : goquery.Selection)
  : string :=
  match goquery.Attr sel name with
  | Some a => a
  | None => def
  end.

(** [attrToResolvedUrl] *)
Definition attrToResolvedUrl (name : string) (sel : goquery.Selection)
  : M World (URL + Error) :=
  match goquery.Attr sel name with
  | None =>
      mret (inr (AttributeNotFound ("Attribute '" +:+ name +:+ "' not found.")))
  | Some src =>
      match url_Parse lib src with
      | inr err => mret (inr err)
      | inl ur => u ← ResolveUrl lib ur; mret (inl u)
      end
  end.

(** [doClick] *)
Definition doClick (ed : Dispatcher World Value) (u : URL) : M World error :=
  logDebug "Doing event event.Click." [];;
  Do ed event.Click VBrowser (VURL u).

(** [Click]: what [doClick] returns is dropped; the referer is read when
    [httpGET] is called. *)
Definition Click (ed : Dispatcher World Value) (expr : string)
  : M World error :=
  sel ← Find lib expr;
  if bool_decide (goquery.Length sel = 0) then
    mret (Some (ElementNotFound
                  ("Element not found matching expr '" +:+ expr +:+ "'.")))
  else if negb (goquery.Is sel "a") then
    mret (Some (ElementNotFound
                  ("Expr '" +:+ expr +:+ "' must match an anchor tag.")))
  else
    r ← attrToResolvedUrl "href" sel;
    match r with
    | inr err => mret (Some err)
    | inl href =>
        doClick ed href;;
        ref ← Url;
        httpGET lib ed href (Some ref)
    end.

(** [Form], the method of the browser. *)
Definition Form_ (ed : Dispatcher World Value) (expr : string)
  : M World (option Form * error) :=
  sel ← Find lib expr;
  if bool_decide (goquery.Length sel = 0) then
    mret (None, Some (ElementNotFound
                        ("Form not found matching expr '" +:+ expr +:+ "'.")))
  else if negb (goquery.Is sel "form") then
    mret (None, Some (ElementNotFound
                        ("Expr '" +:+ expr +:+ "' does not match a form tag.")))
  else mret (Some (newForm lib ed sel), None).

(** [sel.Each(f)] for a closure that calls methods of the browser: [f]
    runs on every element in document order, from index [i] on. *)
Fixpoint each_from {A} (i : nat) (sel : goquery.Selection)
         (f : nat -> goquery.Selection -> A -> M World A) (acc : A)
  : M World A :=
  match sel with
  | [] => mret acc
  | n :: rest => acc' ← f i [n] acc; each_from (S i) rest f acc'
  end.

Definition EachM {A} (sel : goquery.Selection)
           (f : nat -> goquery.Selection -> A -> M World A) (acc : A)
  : M World A :=
  each_from 0 sel f acc.

(** [Links] *)
Definition Links : M World (list Link) :=
  sel ← Find lib "a";
  EachM sel
    (fun _ s links =>
       r ← attrToResolvedUrl "href" s;
       match r with
       | inl href =>
           mret (links ++ [NewLinkAsset href (attrOrDefault "id" "" s) (Text s)])
       | inr _ => mret links
       end)
    [].

(** [Images] *)
Definition Images : M World (list Image) :=
  sel ← Find lib "img";
  EachM sel
    (fun _ s images =>
       r ← attrToResolvedUrl "src" s;
       match r with
       | inl src =>
           mret (images ++ [NewImageAsset src (attrOrDefault "id" "" s)
                              (attrOrDefault "alt" "" s)
                              (attrOrDefault "title" "" s)])
       | inr _ => mret images
       end)
    [].

(** [Stylesheets] *)
Definition Stylesheets : M World (list Stylesheet) :=
  sel ← Find lib "link";
  EachM sel
    (fun _ s stylesheets =>
       match goquery.Attr s "rel" with
       | Some rel =>
           if String.eqb rel "stylesheet" then
             r ← attrToResolvedUrl "href" s;
             match r with
             | inl href =>
                 mret (stylesheets
                         ++ [NewStylesheetAsset href (attrOrDefault "id" "" s)
                               (attrOrDefault "media" "all" s)
                               (attrOrDefault "type" "text/css" s)])
             | inr _ => mret stylesheets
             end
           else mret stylesheets
       | None => mret stylesheets
       end)
    [].

(** [Scripts] *)
Definition Scripts : M World (list Script) :=
  sel ← Find lib "script";
  EachM sel
    (fun _ s scripts =>
       r ← attrToResolvedUrl "src" s;
       match r with
       | inl src =>
           mret (scripts ++ [NewScriptAsset src (attrOrDefault "id" "" s)
                               (attrOrDefault "type" "text/javascript" s)])
       | inr _ => mret scripts
       end)
    [].

End Page.

(** The URL an element's attribute resolves to on the page at [base];
    [None] when the attribute is missing or does not parse. *)
Definition resolved (lib : Collaborators) (base : URL) (name : string)
           (n : goquery.Node) : option URL :=
  match goquery.Attr [n] name with
  | None => None
  | Some src =>
      match url_Parse lib src with
      | inr _ => None
      | inl ur => Some (url_ResolveReference lib base ur)
      end
  end.

(** A caller's sequence of navigations: the requests are issued one after
    the other and the answers collected. *)
Fixpoint navigate (lib : Collaborators) (ed : Dispatcher World Value)
         (reqs : list http.Request) : M World (list error) :=
  match reqs with
  | [] => mret []
  | req :: rest =>
      r ← httpRequest lib ed req;
      rs ← navigate lib ed rest;
      mret (r :: rs)
  end.

(** [n] calls of [Back] in a row, with their answers. *)
Fixpoint back_n (n : nat) : M World (list bool) :=
  match n with
  | O => mret []
  | S k => b ← Back; bs ← back_n k; mret (b :: bs)
  end.

(** *** Vocabulary of the properties *)

Definition is_log (ev : Effect) : Prop :=
  match ev with
  | ELog _ _ | ELogln _ => True
  | _ => False
  end.

Definition is_send (ev : Effect) : bool :=
  match ev with
  | ESend _ _ => true
  | _ => false
  end.

(** The requests that went out on the network, oldest first. *)
Definition sends (tr : list Effect) : list Effect := List.filter is_send tr.

(** [w'] differs from [w] by log lines only. *)
Definition logs_only (w w' : World) : Prop :=
  bow w' = bow w /\ heap w' = heap w /\ timers w' = timers w /\
  net w' = net w /\
  exists evs, trace w' = trace w ++ evs /\ Forall is_log evs.

Definition is_armed (s : time.TimerStatus) : bool :=
  match s with
  | time.Armed _ => true
  | _ => false
  end.

(** The number of timers that are going to deliver. *)
Definition pending (w : World) : nat :=
  length (List.filter is_armed (timers w)).

(** Timer [t] is going to deliver. *)
Definition armed (w : World) (t : nat) : Prop :=
  exists d, timers w !! t = Some (time.Armed d).

(** The only timer that may be going to deliver is the one the browser
    holds in [bow.refresh]. *)
Definition one_timer (w : World) : Prop :=
  forall t, armed w t -> refresh (bow w) = Some t.

(** A state that came out of a navigation: it is there and it has its
    request. *)
Definition loaded (p : option jar.State) : Prop :=
  exists st req, p = Some st /\ jar.Request st = Some req.

(** What navigation and [Back] maintain: every entry of the history but
    the oldest is a loaded state, and so is the current state once the
    history has an entry. *)
Definition well_formed (w : World) : Prop :=
  (history (bow w) <> [] -> loaded (state (bow w))) /\
  (forall i p, history (bow w) !! i = Some p ->
               S i < length (history (bow w)) -> loaded p).

(** In [w] the browser and the network are those of [w0] and the header
    map at address [l] is [m]. *)
Definition holds (l : loc) (m : Header) (w0 w : World) : Prop :=
  bow w = bow w0 /\ net w = net w0 /\ heap w !! l = Some m.

(** A handler that leaves the current state and the history alone. *)
Definition keeps_session (h : HandlerFunc World Value) : Prop :=
  forall e sender args w,
    state (bow (snd (h e sender args w))) = state (bow w) /\
    history (bow (snd (h e sender args w))) = history (bow w).

End browser.

(** ** Package surf *)

Module surf.
Import event browser.

Definition DefaultSendReferer : bool := true.
Definition DefaultMetaRefreshHandling : bool := true.
Definition DefaultFollowRedirects : bool := true.

(** [NewBrowser].  [DefaultUserAgent] is [agent.Create()] and [rj] is
    [jar.NewMemoryRecorder()], neither among the sources; the headers jar
    [jar.NewMemoryHeaders()] is an empty map, here at address 0.
    [answers] is what the network holds for this browser. *)
Definition NewBrowser (DefaultUserAgent : string) (rj : Handler World Value)
           (answers : list Reply) : Dispatcher World Value * World :=
  (On NewDispatcher PostRequest rj,
   {| bow := {| state := None;
                userAgent := DefaultUserAgent;
                history := jar.NewMemoryHistory;
                headers := Some 0;
                attributes :=
                  <[FollowRedirects := DefaultFollowRedirects]>
                    (<[MetaRefreshHandling := DefaultMetaRefreshHandling]>
                       (<[SendReferer := DefaultSendReferer]> ∅));
                refresh := None;
                auth := {| Username := ""; Password := "" |};
                logger := None;
                logLevel := 0%Z |};
      heap := [∅];
      timers := [];
      net := answers;
      trace := [] |}).

End surf.

(** ** A small world to run the browser in *)

Module demo.
Import event browser surf.

(** Three pages: one that asks to be refreshed after two seconds, one
    whose refresh directive does not parse, one with two forms. *)
Definition page (body : string) : goquery.Document :=
  if String.eqb body "refresh" then
    [ {| goquery.node_tag := "meta";
         goquery.node_attrs := [("http-equiv", "refresh"); ("content", "2")] |} ]
  else if String.eqb body "bad-refresh" then
    [ {| goquery.node_tag := "meta";
         goquery.node_attrs := [("http-equiv", "refresh");
                                ("content", "2; url=/next")] |} ]
  else if String.eqb body "forms" then
    [ {| goquery.node_tag := "form"; goquery.node_attrs := [("id", "a")] |};
      {| goquery.node_tag := "p"; goquery.node_attrs := [] |};
      {| goquery.node_tag := "form"; goquery.node_attrs := [("id", "b")] |} ]
  else [].

(** A selector engine that knows tag names and the refresh selector. *)
Definition find (dom : goquery.Document) (expr : string) : goquery.Selection :=
  List.filter
    (fun n =>
       if String.eqb expr "meta[http-equiv='refresh']"
       then String.eqb (goquery.node_tag n) "meta"
       else String.eqb (goquery.node_tag n) expr)
    dom.

Definition lib : Collaborators := {|
  url_Parse := fun s => if String.eqb s "" then inr (InvalidURL "empty url")
                        else inl s;
  url_ResolveReference := fun base u => u;
  url_SetRawQuery := fun u q => u +:+ "?" +:+ q;
  url_Encode := fun _ => "";
  time_ParseDuration :=
    fun s => if String.eqb s "2s" then Some 2000000000%Z else None;
  goquery_NewDocumentFromResponse := fun resp => inl (page (http.RespBody resp));
  goquery_Find := find;
  base64_EncodeToString := fun s => s;
  form_Action := fun _ => "/";
  form_Method := fun _ => "GET"
|}.

Definition response (body : string) : http.Response :=
  {| http.StatusCode := 200; http.RespHeader := ∅; http.RespBody := body |}.

Definition request (url : URL) : http.Request :=
  {| http.Method := "GET"; http.URL_ := url; http.Header_ := Some 0;
     http.Body := None |}.

(** A recorder that lets every event pass. *)
Definition recorder : Handler World Value :=
  {| HandleEvent := fun _ _ _ => mret None |}.

(** A handler that refuses. *)
Definition veto : HandlerFunc World Value :=
  fun _ _ _ => mret (Some (HandlerFailure "vetoed")).

(** A new browser in front of a network with the given answers. *)
Definition dispatcher : Dispatcher World Value :=
  fst (NewBrowser "surf" recorder []).

Definition world (answers : list Reply) : World :=
  snd (NewBrowser "surf" recorder answers).

(** The state of the world after the given navigations. *)
Definition after (ed : Dispatcher World Value) (reqs : list http.Request)
           (w : World) : World :=
  snd (navigate lib ed reqs w).

(** The dispatcher of the new browser with the refusing handler bound to
    [PreRequest], respectively to [PostRequest]. *)
Definition guarded : Dispatcher World Value :=
  OnFunc dispatcher PreRequest veto.

Definition checked : Dispatcher World Value :=
  OnFunc dispatcher PostRequest veto.

Definition home : http.Request := request "http://a/".
Definition next : http.Request := request "http://a/b".

(** A new browser that does not follow redirects. *)
Definition strict (answers : list Reply) : World :=
  snd (SetAttribute FollowRedirects false (world answers)).

(** A browser that went to two pages. *)
Definition visited : World :=
  set_bow (with_state (Some (jar.NewHistoryState next (response "") [])))
    (set_bow (with_history
                [Some (jar.NewHistoryState home (response "") []); None])
       (world [])).

(** Networks that hold one page, two pages, and a redirect for a browser
    that does not follow redirects. *)
Definition one_page : World := world [ReplyPage (response "forms")].

Definition two_pages : World :=
  world [ReplyPage (response "refresh"); ReplyPage (response "forms")].

Definition redirecting : World :=
  strict [ReplyRedirect 302 "http://b/"; ReplyPage (response "forms")].

(** A browser on a page that asked to be refreshed, one on a page whose
    refresh directive does not parse, and one on the page with the
    forms. *)
Definition refreshing : World := after dispatcher [home] two_pages.

Definition bad_refresh : World :=
  after dispatcher [home] (world [ReplyPage (response "bad-refresh")]).

Definition on_forms : World := after dispatcher [home] one_page.

(** A page with links, images, style sheets and scripts, some of them
    without the attribute that locates them, and a browser on it. *)
Definition element (tag : string) (attrs : list (string * string))
  : goquery.Node :=
  {| goquery.node_tag := tag; goquery.node_attrs := attrs |}.

Definition gallery : goquery.Document :=
  [ element "a" [("href", "/x"); ("id", "first")];
    element "a" [("name", "anchor")];
    element "img" [("src", "/i.png"); ("alt", "picture")];
    element "img" [];
    element "link" [("rel", "stylesheet"); ("href", "/s.css")];
    element "link" [("rel", "icon"); ("href", "/f.ico")];
    element "script" [("src", "/s.js")];
    element "script" [] ].

Definition on_gallery : World :=
  set_bow (with_state (Some (jar.NewHistoryState home (response "") gallery)))
    (world [ReplyPage (response "forms")]).

(** The text of an element, for [Links]. *)
Definition text (sel : goquery.Selection) : string := "".

(** A network that refuses the connection, and collaborators whose
    parser rejects one response. *)
Definition unreachable : World :=
  world [ReplyFail (TransportFailure "connection refused")].

Definition picky : Collaborators := {|
  url_Parse := url_Parse lib;
  url_ResolveReference := url_ResolveReference lib;
  url_SetRawQuery := url_SetRawQuery lib;
  url_Encode := url_Encode lib;
  time_ParseDuration := time_ParseDuration lib;
  goquery_NewDocumentFromResponse :=
    fun resp => if String.eqb (http.RespBody resp) "garbage"
                then inr (TransportFailure "unexpected EOF")
                else inl (page (http.RespBody resp));
  goquery_Find := find;
  base64_EncodeToString := base64_EncodeToString lib;
  form_Action := form_Action lib;
  form_Method := form_Method lib
|}.

Definition garbled : World := world [ReplyPage (response "garbage")].

(** A browser made as [&browser.Browser{}] with nothing set but a user
    agent, and a new browser with a logger at [LogLevelDebug]. *)
Definition bare : World :=
  {| bow := {| state := None; userAgent := "surf"; history := [];
               headers := None; attributes := ∅; refresh := None;
               auth := {| Username := ""; Password := "" |};
               logger := None; logLevel := 0%Z |};
     heap := []; timers := []; net := []; trace := [] |}.

Definition logging : World :=
  {| bow := {| state := None; userAgent := "surf"; history := [];
               headers := Some 0; attributes := ∅; refresh := None;
               auth := {| Username := ""; Password := "" |};
               logger := Some StdLogger; logLevel := LogLevelDebug |};
     heap := [∅]; timers := []; net := []; trace := [] |}.

(** Handlers for the journal of a dispatch: the second one refuses. *)
Definition pass : HandlerFunc nat Value :=
  fun _ _ _ n => (Ret None, S n).

Definition refuse : HandlerFunc nat Value :=
  fun _ _ _ n => (Ret (Some (HandlerFailure "refused")), S n).

End demo.

(** * Properties *)

Import event browser surf.

(** ** The monad *)

Lemma bind_run {W A B} (c : M W A) (k : A -> M W B) (w : W) :
  (x ← c; k x) w =
  match c w with
  | (Ret a, w') => k a w'
  | (Panic msg, w') => (Panic msg, w')
  end.
Proof. reflexivity. Qed.

Lemma bind_ret_run {W A B} (c : M W A) (k : A -> M W B) (w w' : W) (a : A) :
  c w = (Ret a, w') -> (x ← c; k x) w = k a w'.
Proof. intros H. rewrite bind_run, H. reflexivity. Qed.

Lemma bind_panic_run {W A B} (c : M W A) (k : A -> M W B) (w w' : W) msg :
  c w = (Panic msg, w') -> (x ← c; k x) w = (Panic msg, w').
Proof. intros H. rewrite bind_run, H. reflexivity. Qed.

Ltac run := unfold mbind, M_bind, bind, mret, M_ret, ret, get, modify, panic in *.

(** ** Logging changes nothing but the log *)

Section Logging.
Implicit Types (w : World).

Lemma logs_only_refl w : logs_only w w.
Proof.
  unfold logs_only. split_and!; auto. exists []. by rewrite app_nil_r.
Qed.

Lemma logs_only_trans w1 w2 w3 :
  logs_only w1 w2 -> logs_only w2 w3 -> logs_only w1 w3.
Proof.
  intros (Hb & Hh & Ht & Hn & evs & Htr & Hl) (Hb' & Hh' & Ht' & Hn' & evs' & Htr' & Hl').
  unfold logs_only. split_and!; try congruence.
  exists (evs ++ evs'). split.
  - rewrite Htr', Htr, app_assoc. done.
  - apply Forall_app; auto.
Qed.

Lemma logs_only_emit w ev : is_log ev -> logs_only w (emit ev w).
Proof.
  intros H. unfold logs_only; cbn. split_and!; auto.
  exists [ev]. split; auto.
Qed.

Lemma logDebug_run msg a w :
  exists w', logDebug msg a w = (Ret tt, w') /\ logs_only w w'.
Proof.
  unfold logDebug. destruct (_ && _).
  - eexists; split; [reflexivity|]. by apply logs_only_emit.
  - eexists; split; [reflexivity|]. apply logs_only_refl.
Qed.

Lemma logInfo_run msg a w :
  exists w', logInfo msg a w = (Ret tt, w') /\ logs_only w w'.
Proof.
  unfold logInfo. destruct (_ && _).
  - eexists; split; [reflexivity|]. by apply logs_only_emit.
  - eexists; split; [reflexivity|]. apply logs_only_refl.
Qed.

Lemma logError_run e w :
  exists w', logError e w = (Ret (Some e), w') /\ logs_only w w'.
Proof.
  unfold logError. destruct (_ && _).
  - eexists; split; [reflexivity|]. by apply logs_only_emit.
  - eexists; split; [reflexivity|]. apply logs_only_refl.
Qed.

Lemma sends_app tr1 tr2 : sends (tr1 ++ tr2) = sends tr1 ++ sends tr2.
Proof. unfold sends. apply List.filter_app. Qed.

Lemma sends_logs evs : Forall is_log evs -> sends evs = [].
Proof.
  induction 1 as [|ev evs Hev _ IH]; [done|].
  unfold sends in *. cbn. destruct ev; cbn in *; try done.
Qed.

Lemma logs_only_sends w w' : logs_only w w' -> sends (trace w') = sends (trace w).
Proof.
  intros (_ & _ & _ & _ & evs & -> & Hl).
  rewrite sends_app, (sends_logs evs), app_nil_r; auto.
Qed.

End Logging.

(** ** The dispatcher *)

Section DispatcherFacts.
Context {W Any : Type}.
Implicit Types (ed : Dispatcher W Any) (h : HandlerFunc W Any).

Lemma bound_OnFunc_eq ed e h : bound (OnFunc ed e h) e = bound ed e ++ [h].
Proof. unfold bound at 1, OnFunc; simpl. by rewrite lookup_insert_eq. Qed.

Lemma bound_OnFunc_ne ed e e' h : e ≠ e' -> bound (OnFunc ed e h) e' = bound ed e'.
Proof. intros Hne. unfold bound, OnFunc; simpl. by rewrite lookup_insert_ne. Qed.

Lemma bound_On_eq ed e (handler : Handler W Any) :
  bound (On ed e handler) e = bound ed e ++ [fun e s a => HandleEvent handler e s a].
Proof. unfold bound at 1, On; simpl. by rewrite lookup_insert_eq. Qed.

Lemma bound_NewDispatcher e : bound (@NewDispatcher W Any) e = [].
Proof. reflexivity. Qed.

Lemma bound_bind_all ed e hs : bound (bind_all ed e hs) e = bound ed e ++ hs.
Proof.
  revert ed. induction hs as [|h hs IH]; intros ed; simpl.
  - by rewrite app_nil_r.
  - unfold bind_all in *. simpl. rewrite IH, bound_OnFunc_eq, <- app_assoc. done.
Qed.
End DispatcherFacts.

Lemma range_probes {W Any} (hs : list (HandlerFunc W Any)) :
  forall (n : nat) (e : Event) (sender args : Any) (w : W) (log0 : list (Call Any)),
  exists k calls,
    snd (snd (range_handlers (imap (fun i => probe (n + i)) hs) e sender args (w, log0)))
      = log0 ++ calls /\
    call_handler <$> calls = seq n k /\
    k <= length hs /\
    Forall (carries e sender args) calls /\
    match fst (range_handlers (imap (fun i => probe (n + i)) hs) e sender args (w, log0)) with
    | Ret None => k = length hs /\ Forall quiet calls
    | r => exists pre c, calls = pre ++ [c] /\ Forall quiet pre /\ call_result c = r
    end.
Proof.
  induction hs as [|h hs IH]; intros n e sender args w log0.
  - exists 0, []. simpl. rewrite app_nil_r. repeat split; auto.
  - cbn [imap range_handlers].
    rewrite bind_run. unfold probe at 1 3. cbn [fst snd].
    destruct (h e sender args w) as [r w'] eqn:Hh.
    rewrite (imap_ext _ (fun i => probe (S n + i))) by (intros; simpl; f_equal; lia).
    set (c := {| call_handler := n + 0; call_event := e; call_sender := sender;
                 call_args := args; call_result := r |}).
    assert (Hstop : forall r', call_result c = r' ->
              exists k calls, log0 ++ [c] = log0 ++ calls /\
                call_handler <$> calls = seq n k /\ k <= length (h :: hs) /\
                Forall (carries e sender args) calls /\
                exists pre c', calls = pre ++ [c'] /\ Forall quiet pre /\ call_result c' = r').
    { intros r' Hr. exists 1, [c]. split_and!; auto.
      - cbn. f_equal. lia.
      - cbn. lia.
      - constructor; [|constructor]. done.
      - exists [], c. split_and!; auto. }
    destruct r as [[err|]|msg].
    + destruct (Hstop _ eq_refl) as (k & calls & ? & ? & ? & ? & ?).
      exists k, calls. cbn. split_and!; auto.
    + destruct (IH (S n) e sender args w' (log0 ++ [c]))
        as (k & calls & Hlog & Hids & Hk & Hc & Hres).
      exists (S k), (c :: calls). rewrite Hlog, <- app_assoc. cbn [app].
      split_and!; auto.
      * cbn. rewrite Hids. f_equal. lia.
      * cbn. lia.
      * constructor; auto. done.
      * destruct (fst (range_handlers _ e sender args (w', log0 ++ [c])))
          as [[err|]|msg].
        -- destruct Hres as (pre & c' & -> & Hq & Hr).
           exists (c :: pre), c'. split_and!; auto. constructor; auto. done.
        -- destruct Hres as [-> Hq]. split; auto. constructor; auto. done.
        -- destruct Hres as (pre & c' & -> & Hq & Hr).
           exists (c :: pre), c'. split_and!; auto. constructor; auto. done.
    + destruct (Hstop _ eq_refl) as (k & calls & ? & ? & ? & ? & ?).
      exists k, calls. cbn. split_and!; auto.
Qed.

(** ** Dispatch and the session *)

Section DispatchFrame.

Lemma range_handlers_keeps_session (hs : list (HandlerFunc World Value)) :
  Forall keeps_session hs ->
  forall e sender args w,
    state (bow (snd (range_handlers hs e sender args w))) = state (bow w) /\
    history (bow (snd (range_handlers hs e sender args w))) = history (bow w).
Proof.
  induction 1 as [|h hs Hh _ IH]; intros e sender args w; [done|].
  cbn [range_handlers]. rewrite bind_run.
  destruct (Hh e sender args w) as [Hs Hi].
  destruct (h e sender args w) as [[[err|]|msg] w1]; cbn in *; auto.
  destruct (IH e sender args w1) as [Hs' Hi']. split; congruence.
Qed.

Lemma Do_keeps_session (ed : Dispatcher World Value) e :
  Forall keeps_session (bound ed e) ->
  forall sender args w,
    state (bow (snd (Do ed e sender args w))) = state (bow w) /\
    history (bow (snd (Do ed e sender args w))) = history (bow w).
Proof. intros H sender args w. by apply range_handlers_keeps_session. Qed.

Lemma doPreRequest_keeps_session ed req w :
  Forall keeps_session (bound ed PreRequest) ->
  state (bow (snd (doPreRequest ed req w))) = state (bow w) /\
  history (bow (snd (doPreRequest ed req w))) = history (bow w).
Proof.
  intros H. unfold doPreRequest. rewrite bind_run.
  destruct (logDebug_run "Doing event event.PreRequest." [] w) as (w0 & -> & Hl).
  destruct (Do_keeps_session ed PreRequest H VBrowser (VRequest req) w0) as [Hs Hh].
  destruct Hl as (Hb & _). rewrite Hs, Hh, Hb. done.
Qed.

Lemma doPostRequest_keeps_session ed resp w :
  Forall keeps_session (bound ed PostRequest) ->
  state (bow (snd (doPostRequest ed resp w))) = state (bow w) /\
  history (bow (snd (doPostRequest ed resp w))) = history (bow w).
Proof.
  intros H. unfold doPostRequest. rewrite bind_run.
  destruct (logDebug_run "Doing event event.PostRequest." [] w) as (w0 & -> & Hl).
  destruct (Do_keeps_session ed PostRequest H VBrowser (VResponse resp) w0) as [Hs Hh].
  destruct Hl as (Hb & _). rewrite Hs, Hh, Hb. done.
Qed.

End DispatchFrame.

(** ** The pipeline, stage by stage *)

Section Stages.
Context (lib : Collaborators).
Implicit Types (w : World) (ed : Dispatcher World Value) (req : http.Request).

Lemma httpRequest_pre_failed ed req w e w1 :
  doPreRequest ed req w = (Ret (Some e), w1) ->
  httpRequest lib ed req w = logError e w1.
Proof. intros H. unfold httpRequest. by rewrite (bind_ret_run _ _ _ _ _ H). Qed.

Lemma httpRequest_pre_ok ed req w w1 :
  doPreRequest ed req w = (Ret None, w1) ->
  httpRequest lib ed req w =
  (r ← contact_transport req;
   match r with
   | inr e => logError e
   | inl resp =>
       logInfo "Received %d response." [LInt (http.StatusCode resp)];;
       match goquery_NewDocumentFromResponse lib resp with
       | inr e => logError e
       | inl dom =>
           commit lib req resp dom;;
           err ← doPostRequest ed resp;
           match err with
           | Some e => logError e
           | None => mret None
           end
       end
   end) w1.
Proof. intros H. unfold httpRequest. by rewrite (bind_ret_run _ _ _ _ _ H). Qed.

Lemma httpRequest_transport_failed ed req w w1 e w2 :
  doPreRequest ed req w = (Ret None, w1) ->
  contact_transport req w1 = (Ret (inr e), w2) ->
  httpRequest lib ed req w = logError e w2.
Proof.
  intros H1 H2. rewrite (httpRequest_pre_ok _ _ _ _ H1).
  by rewrite (bind_ret_run _ _ _ _ _ H2).
Qed.

End Stages.


Section Commit.
Context (lib : Collaborators).
Implicit Types (w : World) (ed : Dispatcher World Value) (req : http.Request).

Lemma handleMetaRefresh_run w st dom :
  state (bow w) = Some st -> jar.Dom st = Some dom ->
  exists w', handleMetaRefresh lib w = (Ret tt, w') /\
    state (bow w') = state (bow w) /\ history (bow w') = history (bow w) /\
    headers (bow w') = headers (bow w) /\ attributes (bow w') = attributes (bow w) /\
    heap w' = heap w /\ net w' = net w /\ sends (trace w') = sends (trace w) /\
    ((timers w' = timers w /\ refresh (bow w') = refresh (bow w)) \/
     (exists d, timers w' = timers w ++ [time.Armed d] /\
                refresh (bow w') = Some (length (timers w)))).
Proof.
  intros Hst Hdom. unfold handleMetaRefresh, Find. run. cbn.
  destruct (attribute w MetaRefreshHandling); [|eexists; split_and!; eauto].
  rewrite Hst, Hdom.
  case_bool_decide; [|eexists; split_and!; eauto].
  destruct (goquery.Attr _ _) as [attr|]; [|eexists; split_and!; eauto].
  destruct (time_ParseDuration lib _) as [dur|]; [|eexists; split_and!; eauto].
  destruct (logDebug_run "Creating %d second timer for meta refresh." [LDuration dur] w)
    as (w0 & Hlog & Hl).
  rewrite Hlog. cbn.
  destruct Hl as (Hb & Hh & Ht & Hn & evs & Htr & Hev).
  eexists; split; [reflexivity|]. cbn. rewrite Hb, Hh, Ht, Hn, Htr.
  split_and!; auto.
  - rewrite !sends_app, (sends_logs evs Hev). cbn. by rewrite !app_nil_r.
  - right. eauto.
Qed.

Lemma commit_run req resp dom w :
  exists w', commit lib req resp dom w = (Ret tt, w') /\
    state (bow w') = Some (jar.NewHistoryState req resp dom) /\
    history (bow w') = jar.Push (history (bow w)) (state (bow w)) /\
    headers (bow w') = headers (bow w) /\ attributes (bow w') = attributes (bow w) /\
    heap w' = heap w /\ net w' = net w /\ sends (trace w') = sends (trace w) /\
    ((timers w' = timers w /\ refresh (bow w') = refresh (bow w)) \/
     (exists d, timers w' = timers w ++ [time.Armed d] /\
                refresh (bow w') = Some (length (timers w)))).
Proof.
  unfold commit. repeat (rewrite bind_run; cbn [get modify]).
  match goal with |- context [handleMetaRefresh lib ?w1] => set (w0 := w1) end.
  destruct (handleMetaRefresh_run w0 (jar.NewHistoryState req resp dom) dom)
    as (w' & Hrun & Hs & Hh & Hhd & Ha & Hheap & Hn & Htr & Ht); [done..|].
  exists w'. split; [exact Hrun|]. rewrite Hs, Hh, Hhd, Ha, Hheap, Hn, Htr.
  split_and!; auto.
Qed.

End Commit.

(** ** The transport *)

Section Transport.
Implicit Types (w : World) (req : http.Request).

Lemma shouldRedirect_run req via w :
  shouldRedirect req via w =
  (Ret (if attribute w FollowRedirects then None
        else Some (Location ("Redirects are disabled. Cannot follow '"
                               +:+ http.URL_ req +:+ "'."))), w).
Proof. unfold shouldRedirect. by destruct (attribute w FollowRedirects). Qed.

(** The exchange touches neither the browser, nor the header maps, nor
    the timers; it sends requests, and it always returns. *)
Lemma follow_redirects_frame answers :
  forall req via w,
  exists r w', follow_redirects buildClient answers req via w = (Ret r, w') /\
    bow w' = bow w /\ heap w' = heap w /\ timers w' = timers w /\
    exists evs, trace w' = trace w ++ evs /\ Forall (fun ev => is_send ev = true) evs.
Proof.
  induction answers as [|a answers IH]; intros req via w.
  - cbn. eexists _, _. split; [reflexivity|]. cbn. split_and!; auto.
    eexists [_]. split; [reflexivity|]. by repeat constructor.
  - destruct a as [err|code location|resp].
    + cbn. eexists _, _. split; [reflexivity|]. cbn. split_and!; auto.
      eexists [_]. split; [reflexivity|]. by repeat constructor.
    + cbn [follow_redirects]. rewrite bind_run. cbn [round_trip modify].
      rewrite bind_run. cbn [CheckRedirect buildClient]. rewrite shouldRedirect_run.
      set (w0 := set_net answers (emit _ w)).
      destruct (attribute w0 FollowRedirects).
      * destruct (IH (redirected req location) (via ++ [req]) w0)
          as (r & w' & Hrun & Hb & Hh & Ht & evs & Htr & Hev).
        exists r, w'. split; [exact Hrun|]. rewrite Hb, Hh, Ht, Htr. cbn.
        split_and!; auto. eexists (_ :: evs). rewrite <- app_assoc. split; [reflexivity|].
        constructor; auto.
      * eexists _, _. split; [reflexivity|]. cbn. split_and!; auto.
        eexists [_]. split; [reflexivity|]. by repeat constructor.
    + cbn. eexists _, _. split; [reflexivity|]. cbn. split_and!; auto.
      eexists [_]. split; [reflexivity|]. by repeat constructor.
Qed.

(** The first redirect met while [FollowRedirects] is off ends the
    exchange, at whatever hop it is met. *)
Lemma follow_redirects_disabled code location rest req via w :
  attribute w FollowRedirects = false ->
  follow_redirects buildClient (ReplyRedirect code location :: rest) req via w =
  (Ret (inr (UrlError (http.Method req) location
               (Location ("Redirects are disabled. Cannot follow '"
                            +:+ location +:+ "'.")))),
   set_net rest (emit (ESend req (header_of w req)) w)).
Proof.
  intros Hattr. cbn [follow_redirects]. rewrite bind_run. cbn [round_trip modify].
  rewrite bind_run. cbn [CheckRedirect buildClient]. rewrite shouldRedirect_run.
  unfold attribute in *. cbn. rewrite Hattr. reflexivity.
Qed.

Lemma contact_transport_run req w :
  exists w0, logs_only (refresh_stopped w) w0 /\
    contact_transport req w = follow_redirects buildClient (net w) req [] w0.
Proof.
  unfold contact_transport. rewrite bind_run. cbn [get]. rewrite bind_run.
  assert (Hstop : (match refresh (bow w) with Some t => Stop t | None => mret tt end) w
                  = (Ret tt, refresh_stopped w)).
  { unfold refresh_stopped. by destruct (refresh (bow w)). }
  rewrite Hstop, bind_run.
  destruct (logInfo_run "Sending request. %s %s"
              [LStr (http.Method req); LStr (http.URL_ req)] (refresh_stopped w))
    as (w0 & -> & Hl).
  exists w0. split; [exact Hl|].
  unfold Client_Do. rewrite bind_run. cbn [get].
  destruct Hl as (_ & _ & _ & Hn & _). rewrite Hn.
  unfold refresh_stopped. by destruct (refresh (bow w)).
Qed.

End Transport.

Section Transport2.
Implicit Types (w : World) (req : http.Request).

Lemma contact_transport_frame req w :
  exists r w', contact_transport req w = (Ret r, w') /\
    bow w' = bow w /\ heap w' = heap w /\
    timers w' = timers (refresh_stopped w).
Proof.
  destruct (contact_transport_run req w) as (w0 & Hl & ->).
  destruct (follow_redirects_frame (net w) req [] w0)
    as (r & w' & Hrun & Hb & Hh & Ht & _).
  exists r, w'. split; [exact Hrun|].
  destruct Hl as (Hb0 & Hh0 & Ht0 & _). rewrite Hb, Hh, Ht, Hb0, Hh0, Ht0.
  unfold refresh_stopped. destruct (refresh (bow w)); auto.
Qed.

End Transport2.

Section Navigation.
Context (lib : Collaborators).
Implicit Types (w : World) (ed : Dispatcher World Value) (req : http.Request).

Lemma committed_run req resp dom w2 :
  commit lib req resp dom
    (snd (logInfo "Received %d response." [LInt (http.StatusCode resp)] w2))
  = (Ret tt, committed lib req resp dom w2).
Proof.
  unfold committed.
  destruct (commit_run lib req resp dom
              (snd (logInfo "Received %d response." [LInt (http.StatusCode resp)] w2)))
    as (w' & Hrun & _).
  by rewrite Hrun.
Qed.

Lemma committed_session req resp dom w2 :
  state (bow (committed lib req resp dom w2)) = Some (jar.NewHistoryState req resp dom) /\
  history (bow (committed lib req resp dom w2)) = jar.Push (history (bow w2)) (state (bow w2)).
Proof.
  unfold committed.
  destruct (logInfo_run "Received %d response." [LInt (http.StatusCode resp)] w2)
    as (w0 & Hrun0 & Hb & _).
  rewrite Hrun0. cbn [snd].
  destruct (commit_run lib req resp dom w0) as (w' & Hrun & Hs & Hh & _).
  rewrite Hrun. cbn [snd]. rewrite Hs, Hh, Hb. done.
Qed.

(** Once the transport has answered and the page has parsed, the rest of
    [httpRequest] is the dispatch of [PostRequest] from the committed
    world. *)
Lemma httpRequest_committed ed req w w1 resp w2 dom :
  doPreRequest ed req w = (Ret None, w1) ->
  contact_transport req w1 = (Ret (inl resp), w2) ->
  goquery_NewDocumentFromResponse lib resp = inl dom ->
  httpRequest lib ed req w =
  (err ← doPostRequest ed resp;
   match err with
   | Some e => logError e
   | None => mret None
   end) (committed lib req resp dom w2).
Proof.
  intros H1 H2 H3. rewrite (httpRequest_pre_ok _ _ _ _ _ H1).
  rewrite (bind_ret_run _ _ _ _ _ H2).
  destruct (logInfo_run "Received %d response." [LInt (http.StatusCode resp)] w2)
    as (w0 & Hrun0 & _).
  rewrite (bind_ret_run _ _ _ _ _ Hrun0), H3.
  pose proof (committed_run req resp dom w2) as Hc. rewrite Hrun0 in Hc. cbn [snd] in Hc.
  by rewrite (bind_ret_run _ _ _ _ _ Hc).
Qed.

(** A navigation that returns nil went through every stage. *)
Lemma httpRequest_nil_inv ed req w w' :
  httpRequest lib ed req w = (Ret None, w') ->
  exists w1 resp w2 dom,
    doPreRequest ed req w = (Ret None, w1) /\
    contact_transport req w1 = (Ret (inl resp), w2) /\
    goquery_NewDocumentFromResponse lib resp = inl dom /\
    doPostRequest ed resp (committed lib req resp dom w2) = (Ret None, w').
Proof.
  intros H.
  destruct (doPreRequest ed req w) as [[[e|]|msg] w1] eqn:H1.
  - rewrite (httpRequest_pre_failed _ _ _ _ _ _ H1) in H.
    destruct (logError_run e w1) as (? & Hr & _). rewrite Hr in H. done.
  - destruct (contact_transport req w1) as [[[resp|e]|msg] w2] eqn:H2.
    + destruct (goquery_NewDocumentFromResponse lib resp) as [dom|e] eqn:H3.
      * rewrite (httpRequest_committed _ _ _ _ _ _ _ H1 H2 H3) in H.
        rewrite bind_run in H.
        destruct (doPostRequest ed resp _) as [[[e|]|msg] w4] eqn:H4.
        -- destruct (logError_run e w4) as (? & Hr & _). rewrite Hr in H. done.
        -- exists w1, resp, w2, dom. split_and!; auto.
           unfold mret, M_ret, ret in H. by simplify_eq.
        -- done.
      * rewrite (httpRequest_pre_ok _ _ _ _ _ H1) in H.
        rewrite (bind_ret_run _ _ _ _ _ H2) in H.
        destruct (logInfo_run "Received %d response." [LInt (http.StatusCode resp)] w2)
          as (w0 & Hrun0 & _).
        rewrite (bind_ret_run _ _ _ _ _ Hrun0), H3 in H.
        destruct (logError_run e w0) as (? & Hr & _). rewrite Hr in H. done.
    + rewrite (httpRequest_transport_failed _ _ _ _ _ _ _ H1 H2) in H.
      destruct (logError_run e w2) as (? & Hr & _). rewrite Hr in H. done.
    + rewrite (httpRequest_pre_ok _ _ _ _ _ H1) in H.
      rewrite (bind_panic_run _ _ _ _ _ H2) in H. done.
  - unfold httpRequest in H. rewrite (bind_panic_run _ _ _ _ _ H1) in H. done.
Qed.

Lemma httpRequest_nil_session ed req w w' :
  Forall keeps_session (bound ed PreRequest) ->
  Forall keeps_session (bound ed PostRequest) ->
  httpRequest lib ed req w = (Ret None, w') ->
  history (bow w') = jar.Push (history (bow w)) (state (bow w)) /\
  exists resp dom, state (bow w') = Some (jar.NewHistoryState req resp dom).
Proof.
  intros Hpre Hpost H.
  destruct (httpRequest_nil_inv _ _ _ _ H) as (w1 & resp & w2 & dom & H1 & H2 & H3 & H4).
  destruct (doPreRequest_keeps_session ed req w Hpre) as [Hs1 Hh1].
  rewrite H1 in Hs1, Hh1. cbn [snd] in *.
  destruct (contact_transport_frame req w1) as (r & w2' & Hrun & Hb2 & _).
  rewrite H2 in Hrun. injection Hrun as <- <-.
  destruct (committed_session req resp dom w2) as [Hs3 Hh3].
  destruct (doPostRequest_keeps_session ed resp (committed lib req resp dom w2) Hpost)
    as [Hs4 Hh4].
  rewrite H4 in Hs4, Hh4. cbn [snd] in *.
  rewrite Hh4, Hh3, Hs4, Hs3, Hb2, Hs1, Hh1. eauto.
Qed.

Lemma navigate_history ed reqs :
  Forall keeps_session (bound ed PreRequest) ->
  Forall keeps_session (bound ed PostRequest) ->
  forall w rs w',
    navigate lib ed reqs w = (Ret rs, w') ->
    Forall (fun r => r = None) rs ->
    jar.Len (history (bow w')) = jar.Len (history (bow w)) + length reqs.
Proof.
  intros Hpre Hpost. induction reqs as [|req reqs IH]; intros w rs w' Hrun Hall.
  - cbn in Hrun. injection Hrun as <- <-. cbn. lia.
  - cbn [navigate] in Hrun. rewrite bind_run in Hrun.
    destruct (httpRequest lib ed req w) as [[r|msg] w1] eqn:H1; [|done].
    rewrite bind_run in Hrun.
    destruct (navigate lib ed reqs w1) as [[rs1|msg] w2] eqn:H2; [|done].
    cbn in Hrun. injection Hrun as <- <-.
    apply Forall_cons in Hall as [-> Hall].
    destruct (httpRequest_nil_session _ _ _ _ Hpre Hpost H1) as [Hh _].
    rewrite (IH _ _ _ H2 Hall), Hh. unfold jar.Len, jar.Push. cbn. lia.
Qed.

End Navigation.

(** ** Dispatch order *)

Lemma range_probes_erase {W Any} (hs : list (HandlerFunc W Any)) :
  forall (n : nat) (e : Event) (sender args : Any) (w : W) (log0 : list (Call Any)),
    let out := range_handlers (imap (fun i => probe (n + i)) hs) e sender args (w, log0) in
    (fst out, fst (snd out)) = range_handlers hs e sender args w.
Proof.
  induction hs as [|h hs IH]; intros n e sender args w log0; [done|].
  cbn [imap range_handlers]. cbv zeta. rewrite !bind_run.
  unfold probe at 1 3. cbn [fst snd].
  rewrite (imap_ext _ (fun i => probe (S n + i))) by (intros; simpl; f_equal; lia).
  destruct (h e sender args w) as [[[err|]|msg] w']; [done| |done].
  apply IH.
Qed.

(** C2.  The handlers bound to an event [e], in the order [h1, h2, ...]
    of their registration, are wrapped so as to keep a journal.  A call of
    [Do e sender args] then leaves in the journal the calls of the first
    [k] handlers, in registration order and no other, each with the event,
    the sender and the arguments of the dispatch.  When [Do] returns nil,
    all handlers were called and all answered nil.  Otherwise the last
    handler called is the first that did not answer nil, its answer is the
    answer of [Do], and the handlers after it were not called.  The
    journal does not disturb the dispatch. *)
Theorem Do_calls_bound_handlers_in_order {W Any}
        (ed0 : Dispatcher (W * list (Call Any)) Any) (e : Event)
        (hs : list (HandlerFunc W Any)) (sender args : Any) (w : W)
        (log0 : list (Call Any)) :
  bound ed0 e = [] ->
  let ed := bind_all ed0 e (imap probe hs) in
  let out := Do ed e sender args (w, log0) in
  (exists k calls,
     snd (snd out) = log0 ++ calls /\
     call_handler <$> calls = seq 0 k /\
     k <= length hs /\
     Forall (carries e sender args) calls /\
     match fst out with
     | Ret None => k = length hs /\ Forall quiet calls
     | r => exists pre c,
              calls = pre ++ [c] /\ Forall quiet pre /\ call_result c = r
     end) /\
  (fst out, fst (snd out)) = range_handlers hs e sender args w.
Proof.
  intros Hnone ed out. subst ed out. unfold Do.
  rewrite bound_bind_all, Hnone. cbn [app].
  split.
  - apply (range_probes hs 0).
  - apply (range_probes_erase hs 0).
Qed.

Lemma Do_calls_bound_handlers_in_order_witness :
  bound (@NewDispatcher (nat * list (Call Value)) Value) Submit = [] /\
  let out := Do (bind_all NewDispatcher Submit
                   (imap probe [demo.pass; demo.refuse; demo.pass]))
                Submit VBrowser VNil (0, []) in
  (fst out, fst (snd out))
  = range_handlers [demo.pass; demo.refuse; demo.pass] Submit VBrowser VNil 0.
Proof.
  split; [reflexivity|].
  exact (proj2 (Do_calls_bound_handlers_in_order
                  (@NewDispatcher (nat * list (Call Value)) Value) Submit
                  [demo.pass; demo.refuse; demo.pass] VBrowser VNil 0 []
                  eq_refl)).
Defined.

Example Do_stops_at_the_refusal :
  let out := Do (bind_all NewDispatcher Submit
                   (imap probe [demo.pass; demo.refuse; demo.pass]))
                Submit VBrowser VNil (0, []) in
  fst out = Ret (Some (HandlerFailure "refused")) /\
  call_handler <$> snd (snd out) = [0; 1] /\
  fst (snd out) = 2.
Proof. vm_compute. done. Qed.

(** ** The request pipeline *)

Section PipelineClaims.
Context (lib : Collaborators).
Implicit Types (w : World) (ed : Dispatcher World Value) (req : http.Request).

(** C3.  When the dispatch of [PreRequest] returns an error, [httpRequest]
    returns that error; beyond what the handlers themselves did, it only
    writes the error to the log: no request goes out, the answers of the
    network are not consumed, and the current state and the history are
    those the handlers left, hence those from before the navigation when
    the handlers leave the session alone. *)
Theorem PreRequest_error_aborts_navigation ed req w e w1 :
  doPreRequest ed req w = (Ret (Some e), w1) ->
  let out := httpRequest lib ed req w in
  fst out = Ret (Some e) /\
  logs_only w1 (snd out) /\
  sends (trace (snd out)) = sends (trace w1) /\
  net (snd out) = net w1 /\
  state (bow (snd out)) = state (bow w1) /\
  history (bow (snd out)) = history (bow w1) /\
  (Forall keeps_session (bound ed PreRequest) ->
   state (bow (snd out)) = state (bow w) /\
   history (bow (snd out)) = history (bow w)).
Proof.
  intros H out. subst out. rewrite (httpRequest_pre_failed lib _ _ _ _ _ H).
  destruct (logError_run e w1) as (w' & -> & Hl). cbn [fst snd].
  pose proof (logs_only_sends _ _ Hl) as Hs.
  destruct Hl as (Hb & Hh & Ht & Hn & Hev).
  split_and!; auto.
  - unfold logs_only; auto.
  - by rewrite Hb.
  - by rewrite Hb.
  - intros Hk. destruct (doPreRequest_keeps_session ed req w Hk) as [H1 H2].
    rewrite H in H1, H2. cbn [snd] in *. rewrite Hb. auto.
Qed.

(** C4.  When the transport has answered, the page has parsed and the
    dispatch of [PostRequest] returns an error, [httpRequest] returns that
    error.  The dispatch ran from the committed world, in which the new
    state is current and the previous one is on the history, and after it
    only the error is logged: nothing is rolled back. *)
Theorem PostRequest_error_keeps_commit ed req w w1 resp w2 dom e w4 :
  doPreRequest ed req w = (Ret None, w1) ->
  contact_transport req w1 = (Ret (inl resp), w2) ->
  goquery_NewDocumentFromResponse lib resp = inl dom ->
  doPostRequest ed resp (committed lib req resp dom w2) = (Ret (Some e), w4) ->
  let out := httpRequest lib ed req w in
  fst out = Ret (Some e) /\
  logs_only w4 (snd out) /\
  state (bow (committed lib req resp dom w2))
  = Some (jar.NewHistoryState req resp dom) /\
  history (bow (committed lib req resp dom w2))
  = jar.Push (history (bow w1)) (state (bow w1)) /\
  (Forall keeps_session (bound ed PostRequest) ->
   state (bow (snd out)) = Some (jar.NewHistoryState req resp dom) /\
   history (bow (snd out)) = jar.Push (history (bow w1)) (state (bow w1))).
Proof.
  intros H1 H2 H3 H4 out. subst out.
  rewrite (httpRequest_committed lib _ _ _ _ _ _ _ H1 H2 H3).
  rewrite (bind_ret_run _ _ _ _ _ H4).
  destruct (logError_run e w4) as (w' & -> & Hl). cbn [fst snd].
  destruct (committed_session lib req resp dom w2) as [Hs Hh].
  destruct (contact_transport_frame req w1) as (r & w2' & Hrun & Hb2 & _).
  rewrite H2 in Hrun. injection Hrun as <- <-.
  rewrite Hb2 in Hh.
  split_and!; auto.
  intros Hk.
  destruct (doPostRequest_keeps_session ed resp (committed lib req resp dom w2) Hk)
    as [Hs4 Hh4].
  rewrite H4 in Hs4, Hh4. cbn [snd] in *.
  destruct Hl as (Hb & _). rewrite Hb, Hs4, Hh4. auto.
Qed.

(** C7.  With [FollowRedirects] off, [shouldRedirect] refuses every hop
    it is asked about, and the exchange ends at the first redirect it
    meets, at whatever hop.  A navigation whose exchange meets a redirect
    returns the redirect-disabled error, in the [*url.Error] of the http
    client; one request has gone out, and the current state and the
    history are as the [PreRequest] handlers left them. *)
Theorem redirect_disabled_aborts_navigation ed req w w1 code location rest :
  doPreRequest ed req w = (Ret None, w1) ->
  attribute w1 FollowRedirects = false ->
  net w1 = ReplyRedirect code location :: rest ->
  let disabled url :=
    Location ("Redirects are disabled. Cannot follow '" +:+ url +:+ "'.") in
  let out := httpRequest lib ed req w in
  (forall hop via w0,
     attribute w0 FollowRedirects = false ->
     shouldRedirect hop via w0 = (Ret (Some (disabled (http.URL_ hop))), w0) /\
     forall code' location' rest',
       fst (follow_redirects buildClient
              (ReplyRedirect code' location' :: rest') hop via w0)
       = Ret (inr (UrlError (http.Method hop) location' (disabled location')))) /\
  fst out = Ret (Some (UrlError (http.Method req) location (disabled location))) /\
  state (bow (snd out)) = state (bow w1) /\
  history (bow (snd out)) = history (bow w1) /\
  sends (trace (snd out)) = sends (trace w1) ++ [ESend req (header_of w1 req)] /\
  net (snd out) = rest /\
  (Forall keeps_session (bound ed PreRequest) ->
   state (bow (snd out)) = state (bow w) /\
   history (bow (snd out)) = history (bow w)).
Proof.
  intros H1 Hattr Hnet disabled out. subst out disabled. cbv beta. split.
  { intros hop via w0 H0. split.
    - rewrite shouldRedirect_run, H0. reflexivity.
    - intros. by rewrite follow_redirects_disabled. }
  destruct (contact_transport_run req w1) as (w0 & Hl & Hct).
  assert (Hattr0 : attribute w0 FollowRedirects = false).
  { destruct Hl as (Hb & _). unfold attribute in *. rewrite Hb.
    unfold refresh_stopped. by destruct (refresh (bow w1)). }
  rewrite Hnet, (follow_redirects_disabled _ _ _ _ _ _ Hattr0) in Hct.
  rewrite (httpRequest_transport_failed lib _ _ _ _ _ _ H1 Hct).
  match goal with |- context [logError ?err ?w5] =>
    destruct (logError_run err w5) as (w' & -> & Hl')
  end. cbn [fst snd].
  pose proof (logs_only_sends _ _ Hl') as Hs'.
  pose proof (logs_only_sends _ _ Hl) as Hs.
  destruct Hl' as (Hb' & _ & _ & Hn' & _).
  destruct Hl as (Hb & Hh & _ & _ & _).
  assert (Hbow : bow w' = bow w1).
  { rewrite Hb'. cbn. rewrite Hb. unfold refresh_stopped.
    by destruct (refresh (bow w1)). }
  assert (Hhdr : header_of w0 req = header_of w1 req).
  { unfold header_of. rewrite Hh. unfold refresh_stopped.
    by destruct (refresh (bow w1)). }
  split_and!; auto.
  - by rewrite Hbow.
  - by rewrite Hbow.
  - rewrite Hs'. cbn [trace set_net emit]. rewrite sends_app, Hs, Hhdr. cbn.
    f_equal. unfold refresh_stopped. destruct (refresh (bow w1)); [|done].
    cbn. rewrite sends_app. cbn. by rewrite app_nil_r.
  - intros Hk. destruct (doPreRequest_keeps_session ed req w Hk) as [Hk1 Hk2].
    rewrite H1 in Hk1, Hk2. cbn [snd] in *. rewrite Hbow. auto.
Qed.

End PipelineClaims.

(** ** History *)

Section HistoryClaims.
Context (lib : Collaborators).
Implicit Types (w : World) (ed : Dispatcher World Value) (req : http.Request).

(** C1.  In a navigation whose exchange and parse succeed, the commit
    pushes the state that was current until then onto the history and then
    makes the new state current: the head of the history is the previous
    state, not the new one, and the history is one longer; the dispatch of
    [PostRequest] and the return of [httpRequest] follow from there.  When
    the handlers leave the session alone, a navigation that returns nil
    pushes exactly the state that was current when it began, and after [n]
    such navigations the history is [n] longer: it has length [n] for a
    browser that started with the empty history of [NewBrowser]. *)
Theorem history_records_each_navigation ed :
  (forall req w w1 resp w2 dom,
     doPreRequest ed req w = (Ret None, w1) ->
     contact_transport req w1 = (Ret (inl resp), w2) ->
     goquery_NewDocumentFromResponse lib resp = inl dom ->
     let w3 := committed lib req resp dom w2 in
     history (bow w3) = jar.Push (history (bow w1)) (state (bow w1)) /\
     state (bow w3) = Some (jar.NewHistoryState req resp dom) /\
     jar.Len (history (bow w3)) = S (jar.Len (history (bow w1))) /\
     httpRequest lib ed req w =
     (err ← doPostRequest ed resp;
      match err with
      | Some e => logError e
      | None => mret None
      end) w3) /\
  (Forall keeps_session (bound ed PreRequest) ->
   Forall keeps_session (bound ed PostRequest) ->
   (forall req w w',
      httpRequest lib ed req w = (Ret None, w') ->
      history (bow w') = jar.Push (history (bow w)) (state (bow w)) /\
      exists resp dom, state (bow w') = Some (jar.NewHistoryState req resp dom)) /\
   (forall reqs w rs w',
      navigate lib ed reqs w = (Ret rs, w') ->
      Forall (fun r => r = None) rs ->
      jar.Len (history (bow w')) = jar.Len (history (bow w)) + length reqs /\
      (history (bow w) = jar.NewMemoryHistory ->
       jar.Len (history (bow w')) = length reqs))) /\
  (forall ua rj answers,
     history (bow (snd (NewBrowser ua rj answers))) = jar.NewMemoryHistory).
Proof.
  split_and!.
  - intros req w w1 resp w2 dom H1 H2 H3 w3. subst w3.
    destruct (committed_session lib req resp dom w2) as [Hs Hh].
    destruct (contact_transport_frame req w1) as (r & w2' & Hrun & Hb2 & _).
    rewrite H2 in Hrun. injection Hrun as <- <-.
    rewrite Hb2 in Hh. split_and!; auto.
    + rewrite Hh. reflexivity.
    + by apply (httpRequest_committed lib ed req w w1).
  - intros Hpre Hpost. split.
    + intros req w w' H. by apply (httpRequest_nil_session lib ed).
    + intros reqs w rs w' Hrun Hall.
      pose proof (navigate_history lib ed reqs Hpre Hpost w rs w' Hrun Hall) as Hlen.
      split; [exact Hlen|]. intros Hempty. rewrite Hlen, Hempty. reflexivity.
  - reflexivity.
Qed.

(** Loaded states are what navigation and [Back] leave behind. *)
Lemma well_formed_NewBrowser ua rj answers :
  well_formed (snd (NewBrowser ua rj answers)).
Proof. split; cbn; [done|]. intros i p H. by destruct i. Qed.

Lemma well_formed_committed req resp dom w2 :
  well_formed w2 -> well_formed (committed lib req resp dom w2).
Proof.
  intros [Hcur Hold].
  destruct (committed_session lib req resp dom w2) as [Hs Hh].
  split; rewrite ?Hs, ?Hh.
  - intros _. by eexists _, _.
  - unfold jar.Push. intros [|i] p Hp Hi; cbn in *.
    + injection Hp as <-. apply Hcur. destruct (history (bow w2)); [cbn in Hi; lia|done].
    + apply (Hold i p Hp). lia.
Qed.

Lemma Back_floor w :
  jar.Len (history (bow w)) <= 1 -> Back w = (Ret false, w).
Proof.
  intros H. unfold Back. rewrite bind_run. cbn [get].
  rewrite bool_decide_eq_false_2 by lia. reflexivity.
Qed.

(** Above the floor [Back] pops, whatever the entry; it returns true when
    the entry is a loaded state, and panics on its nil dereference when
    it is not. *)
Lemma Back_pop_any w top rest :
  history (bow w) = top :: rest -> rest <> [] ->
  exists r w', Back w = (r, w') /\
    logs_only (set_bow (with_state top) (set_bow (with_history rest) w)) w' /\
    (r = Ret true \/ r = Panic nil_deref) /\
    (loaded top -> r = Ret true).
Proof.
  intros Hh Hrest. unfold Back. rewrite bind_run. cbn [get].
  rewrite bool_decide_eq_true_2
    by (rewrite Hh; destruct rest; [done|cbn; lia]).
  rewrite bind_run. cbn [modify]. rewrite Hh.
  destruct rest as [|p rest]; [done|]. cbn [jar.Pop].
  rewrite bind_run. unfold Url at 1. cbn [bow set_bow state with_state].
  destruct top as [st|].
  - destruct (jar.Request st) as [rq|] eqn:Hrq.
    + rewrite bind_run.
      match goal with |- context [logDebug ?m ?a ?w0] =>
        destruct (logDebug_run m a w0) as (w' & -> & Hl)
      end.
      exists (Ret true), w'. split_and!; auto.
    + eexists _, _. split; [reflexivity|]. split_and!; auto using logs_only_refl.
      intros (st' & rq & Heq & Hrq'). congruence.
  - eexists _, _. split; [reflexivity|]. split_and!; auto using logs_only_refl.
    intros (st' & rq & Heq & _). done.
Qed.

Lemma Back_well_formed w : well_formed w -> well_formed (snd (Back w)).
Proof.
  intros Hwf. destruct (history (bow w)) as [|top [|p rest]] eqn:Hh.
  - rewrite Back_floor by (rewrite Hh; cbn; lia). exact Hwf.
  - rewrite Back_floor by (rewrite Hh; cbn; lia). exact Hwf.
  - destruct Hwf as [Hcur Hold].
    destruct (Back_pop_any w top (p :: rest) Hh) as (r & w' & -> & Hl & _); [done|].
    cbn [snd]. destruct Hl as (Hb & _). split; rewrite Hb; cbn.
    + intros _. apply (Hold 0); rewrite Hh; cbn; [done|lia].
    + intros i q Hq Hi. apply (Hold (S i)); rewrite Hh; cbn in *; [done|lia].
Qed.

(** One call of [Back], on any browser. *)
Lemma Back_step w :
  sends (trace (snd (Back w))) = sends (trace w) /\
  net (snd (Back w)) = net w /\
  jar.Len (history (bow (snd (Back w)))) <= jar.Len (history (bow w)) /\
  (1 <= jar.Len (history (bow w)) ->
   1 <= jar.Len (history (bow (snd (Back w))))).
Proof.
  destruct (history (bow w)) as [|top [|p rest]] eqn:Hh.
  - rewrite Back_floor by (rewrite Hh; cbn; lia). cbn [snd]. by rewrite Hh.
  - rewrite Back_floor by (rewrite Hh; cbn; lia). cbn [snd]. by rewrite Hh.
  - destruct (Back_pop_any w top (p :: rest) Hh) as (r & w' & -> & Hl & _); [done|].
    cbn [snd]. pose proof (logs_only_sends _ _ Hl) as Hs.
    destruct Hl as (Hb & _ & _ & Hn & _).
    rewrite Hs, Hn, Hb. cbn. split_and!; auto; lia.
Qed.

Lemma back_n_step n :
  forall w,
    sends (trace (snd (back_n n w))) = sends (trace w) /\
    net (snd (back_n n w)) = net w /\
    jar.Len (history (bow (snd (back_n n w)))) <= jar.Len (history (bow w)) /\
    (1 <= jar.Len (history (bow w)) ->
     1 <= jar.Len (history (bow (snd (back_n n w))))).
Proof.
  induction n as [|n IH]; intros w.
  - cbn. split_and!; auto.
  - cbn [back_n]. rewrite bind_run.
    destruct (Back_step w) as (Hs & Hn & Hle & Hfl).
    destruct (Back w) as [[b|msg] w1]; cbn [snd] in *; [|split_and!; auto].
    rewrite bind_run. destruct (IH w1) as (Hs' & Hn' & Hle' & Hfl').
    destruct (back_n n w1) as [[bs|msg] w2]; cbn [snd] in *;
      unfold mret, M_ret, ret; cbn [snd];
      rewrite Hs', Hn'; split_and!; auto; lia.
Qed.

Lemma back_n_returns n :
  forall w, well_formed w -> exists bs, fst (back_n n w) = Ret bs /\ length bs = n.
Proof.
  induction n as [|n IH]; intros w Hwf.
  - by exists [].
  - cbn [back_n]. rewrite bind_run.
    pose proof (Back_well_formed w Hwf) as Hwf1.
    assert (Hret : exists b, fst (Back w) = Ret b).
    { destruct (history (bow w)) as [|top [|p rest]] eqn:Hh.
      - exists false. by rewrite Back_floor by (rewrite Hh; cbn; lia).
      - exists false. by rewrite Back_floor by (rewrite Hh; cbn; lia).
      - destruct (Back_pop_any w top (p :: rest) Hh) as (r & w' & -> & _ & _ & Hr);
          [done|].
        exists true. cbn. apply Hr. destruct Hwf as [_ Hold].
        apply (Hold 0); rewrite Hh; cbn; [done|lia]. }
    destruct Hret as [b Hb]. destruct (Back w) as [r w1]. cbn in Hb, Hwf1. subst r.
    destruct (IH w1 Hwf1) as (bs & Hbs & Hlen). rewrite bind_run.
    destruct (back_n n w1) as [r w2]. cbn in Hbs. subst r.
    exists (b :: bs). cbn. by rewrite Hlen.
Qed.

(** C5.  [Back] returns false and changes nothing when the history has at
    most one entry.  When it has more, [Back] pops the most recent entry
    and makes it the current state, and on a well-formed browser (the
    entries above the oldest are loaded states, as navigation leaves
    them) it returns true; it returns true in no other case.  [Back]
    sends no request and consumes no answer of the network, and no number
    of calls of [Back] takes a history that has an entry below one
    entry. *)
Theorem Back_pops_above_the_floor w :
  (jar.Len (history (bow w)) <= 1 -> Back w = (Ret false, w)) /\
  (1 < jar.Len (history (bow w)) ->
   exists top rest,
     jar.Pop (history (bow w)) = (top, rest) /\
     history (bow w) = top :: rest /\
     state (bow (snd (Back w))) = top /\
     history (bow (snd (Back w))) = rest /\
     (well_formed w -> fst (Back w) = Ret true)) /\
  (fst (Back w) = Ret true -> 1 < jar.Len (history (bow w))) /\
  sends (trace (snd (Back w))) = sends (trace w) /\
  net (snd (Back w)) = net w /\
  (forall n,
     sends (trace (snd (back_n n w))) = sends (trace w) /\
     net (snd (back_n n w)) = net w /\
     (1 <= jar.Len (history (bow w)) ->
      1 <= jar.Len (history (bow (snd (back_n n w))))) /\
     (well_formed w -> exists bs, fst (back_n n w) = Ret bs /\ length bs = n)).
Proof.
  split_and!.
  - apply Back_floor.
  - intros Hlen. destruct (history (bow w)) as [|top [|p rest]] eqn:Hh;
      [cbn in Hlen; lia..|].
    destruct (Back_pop_any w top (p :: rest) Hh) as (r & w' & Hrun & Hl & _ & Hr);
      [done|].
    exists top, (p :: rest). rewrite Hrun. cbn [fst snd].
    destruct Hl as (Hb & _). rewrite Hb. cbn. split_and!; auto.
    intros [_ Hold]. apply Hr. apply (Hold 0); rewrite Hh; cbn; [done|lia].
  - intros Htrue. destruct (decide (1 < jar.Len (history (bow w)))) as [|Hno]; [done|].
    rewrite Back_floor in Htrue by lia. done.
  - apply Back_step.
  - apply Back_step.
  - intros n. destruct (back_n_step n w) as (Hs & Hn & _ & Hfl).
    split_and!; auto. apply back_n_returns.
Qed.

(** ** Reload *)

Lemma Reload_without_request ed w st :
  state (bow w) = Some st -> jar.Request st = None ->
  Reload lib ed w
  = (Ret (Some (PageNotLoaded "Cannot reload, the previous request failed.")), w).
Proof.
  intros Hs Hr. unfold Reload. rewrite bind_run. cbn [get]. by rewrite Hs, Hr.
Qed.

Lemma Reload_reissues_request ed w st req :
  state (bow w) = Some st -> jar.Request st = Some req ->
  Reload lib ed w
  = (logDebug "Reloading page %s." [LStr (http.URL_ req)];;
     httpRequest lib ed req) w.
Proof.
  intros Hs Hr. unfold Reload. rewrite bind_run. cbn [get]. by rewrite Hs, Hr.
Qed.

(** C6, at the input where the code departs from it.  In the browser
    [NewBrowser] returns no state has been set: [Reload] dereferences the
    nil [bow.state] and panics, where the specification, and the code's
    own page-not-loaded branch, have it return the page-not-loaded
    error. *)
Theorem Reload_of_new_browser_panics ua rj answers :
  Reload lib (fst (NewBrowser ua rj answers)) (snd (NewBrowser ua rj answers))
  = (Panic nil_deref, snd (NewBrowser ua rj answers)).
Proof. reflexivity. Qed.

End HistoryClaims.

(** ** The meta-refresh timer *)

Section TimerClaims.
Context (lib : Collaborators).
Implicit Types (w : World) (ed : Dispatcher World Value) (req : http.Request).

Lemma filter_armed_none (ts : list time.TimerStatus) :
  Forall (fun s => is_armed s = false) ts -> List.filter is_armed ts = [].
Proof. induction 1 as [|s ts Hs _ IH]; [done|]. cbn. by rewrite Hs. Qed.

Lemma pending_zero w : (forall t, ~ armed w t) -> pending w = 0.
Proof.
  unfold pending, armed. intros H. rewrite filter_armed_none; [done|].
  apply Forall_lookup. intros t s Hs. destruct s; try done.
  exfalso. apply (H t). eauto.
Qed.

Lemma refresh_stopped_disarms w :
  one_timer w -> forall t, ~ armed (refresh_stopped w) t.
Proof.
  intros Hone t [d Hd]. unfold refresh_stopped in Hd.
  destruct (refresh (bow w)) as [t0|] eqn:Hr.
  - cbn in Hd. destruct (decide (t0 = t)) as [->|Hne].
    + rewrite list_lookup_alter_eq in Hd.
      destruct (timers w !! t) as [[]|]; cbn in Hd; done.
    + rewrite list_lookup_alter_ne in Hd by done.
      assert (Ht : refresh (bow w) = Some t) by (apply Hone; by exists d).
      congruence.
  - assert (Ht : refresh (bow w) = Some t) by (apply Hone; by exists d).
    congruence.
Qed.

Lemma contact_transport_trace req w :
  exists evs,
    trace (snd (contact_transport req w)) = trace (refresh_stopped w) ++ evs /\
    Forall (fun ev => is_log ev \/ is_send ev = true) evs.
Proof.
  destruct (contact_transport_run req w) as (w0 & Hl & ->).
  destruct (follow_redirects_frame (net w) req [] w0)
    as (r & w' & -> & _ & _ & _ & evs & Htr & Hev).
  destruct Hl as (_ & _ & _ & _ & logs & Htr0 & Hlogs). cbn [snd].
  exists (logs ++ evs). rewrite Htr, Htr0, app_assoc. split; [done|].
  apply Forall_app. split.
  - eapply Forall_impl; [exact Hlogs|]. auto.
  - eapply Forall_impl; [exact Hev|]. auto.
Qed.

Lemma committed_timers req resp dom w2 :
  (forall t, ~ armed w2 t) ->
  pending (committed lib req resp dom w2) <= 1 /\
  one_timer (committed lib req resp dom w2).
Proof.
  intros Hnone. unfold committed.
  destruct (logInfo_run "Received %d response." [LInt (http.StatusCode resp)] w2)
    as (w0 & -> & _ & _ & Ht0 & _). cbn [snd].
  destruct (commit_run lib req resp dom w0)
    as (w' & -> & _ & _ & _ & _ & _ & _ & _ & Ht). cbn [snd].
  assert (Hnone0 : forall t, ~ armed w0 t).
  { intros t [d Hd]. apply (Hnone t). exists d. by rewrite <- Ht0. }
  pose proof (pending_zero w0 Hnone0) as Hp0.
  destruct Ht as [[Ht Hr]|(d & Ht & Hr)].
  - split.
    + unfold pending in *. rewrite Ht, Hp0. lia.
    + intros t [d Hd]. exfalso. apply (Hnone0 t). exists d. by rewrite <- Ht.
  - split.
    + unfold pending in *. rewrite Ht, List.filter_app, length_app, Hp0. cbn. lia.
    + intros t [d' Hd]. rewrite Ht in Hd. rewrite Hr.
      destruct (decide (t < length (timers w0))) as [Hlt|Hge].
      * exfalso. apply (Hnone0 t). exists d'. by rewrite lookup_app_l in Hd.
      * apply lookup_lt_Some in Hd. rewrite length_app in Hd. cbn in Hd.
        f_equal. lia.
Qed.

Lemma handleMetaRefresh_unparsable w st dom attr :
  state (bow w) = Some st -> jar.Dom st = Some dom ->
  goquery.Attr (goquery_Find lib dom "meta[http-equiv='refresh']") "content"
  = Some attr ->
  time_ParseDuration lib (attr +:+ "s") = None ->
  handleMetaRefresh lib w = (Ret tt, w).
Proof.
  intros Hs Hd Ha Hp. unfold handleMetaRefresh, Find. run. cbn.
  destruct (attribute w MetaRefreshHandling); [|done].
  rewrite Hs, Hd. case_bool_decide; [|done]. by rewrite Ha, Hp.
Qed.

(** C8.  In a navigation whose [PreRequest] dispatch passed, the timer the
    browser holds is stopped before anything else happens: what the
    exchange adds to the trace, every request sent included, comes after
    the stop, and through the exchange no timer is pending, provided the
    browser's timer was the only one that could be.  The commit then arms
    at most one timer, which the browser holds: never more than one is
    pending.  A refresh directive whose delay does not parse leaves the
    world as it is and raises nothing. *)
Theorem refresh_timer_is_stopped_and_single ed req w w1 :
  doPreRequest ed req w = (Ret None, w1) ->
  one_timer w1 ->
  let w2 := snd (contact_transport req w1) in
  (exists evs,
     trace w2 = trace w1
                ++ match refresh (bow w1) with
                   | Some t => [ETimerStop t]
                   | None => []
                   end
                ++ evs /\
     Forall (fun ev => is_log ev \/ is_send ev = true) evs) /\
  timers w2 = timers (refresh_stopped w1) /\
  pending w2 = 0 /\
  (forall resp dom,
     contact_transport req w1 = (Ret (inl resp), w2) ->
     goquery_NewDocumentFromResponse lib resp = inl dom ->
     let w3 := committed lib req resp dom w2 in
     pending w3 <= 1 /\ one_timer w3 /\
     httpRequest lib ed req w =
     (err ← doPostRequest ed resp;
      match err with
      | Some e => logError e
      | None => mret None
      end) w3) /\
  (forall w0 st dom attr,
     state (bow w0) = Some st -> jar.Dom st = Some dom ->
     goquery.Attr (goquery_Find lib dom "meta[http-equiv='refresh']") "content"
     = Some attr ->
     time_ParseDuration lib (attr +:+ "s") = None ->
     handleMetaRefresh lib w0 = (Ret tt, w0)).
Proof.
  intros H1 Hone w2.
  destruct (contact_transport_trace req w1) as (evs & Htr & Hev).
  destruct (contact_transport_frame req w1) as (r & w2' & Hrun & _ & _ & Ht).
  assert (Hw2 : w2' = w2) by (subst w2; by rewrite Hrun). subst w2'.
  assert (Hnone : forall t, ~ armed w2 t).
  { intros t [d Hd]. apply (refresh_stopped_disarms w1 Hone t).
    exists d. by rewrite <- Ht. }
  split_and!.
  - exists evs. split; [|exact Hev]. fold w2 in Htr. rewrite Htr.
    unfold refresh_stopped. destruct (refresh (bow w1)); cbn.
    + by rewrite <- app_assoc.
    + done.
  - exact Ht.
  - by apply pending_zero.
  - intros resp dom H2 H3 w3.
    destruct (committed_timers req resp dom w2 Hnone) as [Hp Ho].
    split_and!; auto.
    by apply (httpRequest_committed lib ed req w w1).
  - apply handleMetaRefresh_unparsable.
Qed.

End TimerClaims.

(** ** Forms *)

Section FormsClaims.
Context (lib : Collaborators).
Implicit Types (w : World) (ed : Dispatcher World Value).

Lemma Each_append {A} (g : goquery.Selection -> A) (sel : goquery.Selection) :
  forall (acc : list A),
    Each sel (fun _ s acc => acc ++ [g s]) acc = acc ++ ((fun n => g [n]) <$> sel).
Proof.
  unfold Each.
  assert (H : forall (f : nat -> goquery.Node -> nat * goquery.Node) acc,
             (forall i n, snd (f i n) = n) ->
             foldl (fun acc '(i, n) => acc ++ [g [n]]) acc (imap f sel)
             = acc ++ ((fun n => g [n]) <$> sel)).
  { induction sel as [|n sel IH]; intros f acc Hf; cbn.
    - by rewrite app_nil_r.
    - rewrite IH by (intros; apply Hf).
      specialize (Hf 0 n). destruct (f 0 n) as [i n']. cbn in Hf. subst n'.
      by rewrite <- app_assoc. }
  intros acc. by apply H.
Qed.

(** C9.  On a loaded page whose selection of form elements has [n]
    members, [Forms] returns nil when [n] is 0, and otherwise a slice of
    [2n] entries: [n] nil entries, then the [n] forms in document order. *)
Theorem Forms_returns_nil_placeholders_then_forms ed w st dom :
  state (bow w) = Some st -> jar.Dom st = Some dom ->
  let sel := goquery_Find lib dom "form" in
  let n := length sel in
  (n = 0 -> Forms lib ed w = (Ret None, w)) /\
  (1 <= n ->
   exists forms,
     Forms lib ed w = (Ret (Some forms), w) /\
     forms = replicate n None ++ ((fun node => Some (newForm lib ed [node])) <$> sel) /\
     length forms = 2 * n /\
     take n forms = replicate n None /\
     drop n forms = (fun node => Some (newForm lib ed [node])) <$> sel).
Proof.
  intros Hs Hd sel n. unfold Forms, Find. rewrite bind_run, Hs, Hd.
  fold sel. unfold goquery.Length. fold n. split.
  - intros Hn. by rewrite bool_decide_eq_true_2.
  - intros Hn. rewrite bool_decide_eq_false_2 by lia.
    rewrite (Each_append (fun s => Some (newForm lib ed s))).
    eexists. split; [reflexivity|]. split; [reflexivity|].
    split_and!.
    + rewrite length_app, length_replicate, length_fmap. fold n. lia.
    + rewrite take_app_length'; [done|]. by rewrite length_replicate.
    + rewrite drop_app_length'; [done|]. by rewrite length_replicate.
Qed.

End FormsClaims.

(** ** The headers jar *)

Section HeadersClaims.
Context (lib : Collaborators).
Implicit Types (w : World) (ed : Dispatcher World Value) (m : Header).

Lemma values_add_value_eq k v m : values (add_value k v m) k = values m k ++ [v].
Proof. unfold values, add_value. by rewrite lookup_insert_eq. Qed.

Lemma values_add_value_ne k k' v m :
  k <> k' -> values (add_value k v m) k' = values m k'.
Proof. intros H. unfold values, add_value. by rewrite lookup_insert_ne. Qed.

Lemma Header_Add_run l k v w m :
  heap w !! l = Some m ->
  Header_Add (Some l) k v w
  = (Ret tt, set_heap (<[l := add_value k v m]> (heap w)) w).
Proof. intros H. unfold Header_Add. by rewrite H. Qed.

Lemma Header_Add_holds l k v m w0 w :
  holds l m w0 w ->
  exists w', Header_Add (Some l) k v w = (Ret tt, w') /\
             holds l (add_value k v m) w0 w'.
Proof.
  intros (Hb & Hn & Hm). rewrite (Header_Add_run _ _ _ _ _ Hm).
  eexists. split; [reflexivity|]. unfold holds. cbn. split_and!; auto.
  apply list_lookup_insert_eq. by apply lookup_lt_Some in Hm.
Qed.

Lemma logDebug_holds l m w0 w msg a :
  holds l m w0 w ->
  exists w', logDebug msg a w = (Ret tt, w') /\ holds l m w0 w'.
Proof.
  intros (Hb & Hn & Hm). destruct (logDebug_run msg a w) as (w' & Hrun & Hl).
  exists w'. split; [exact Hrun|]. destruct Hl as (Hb' & Hh' & _ & Hn' & _).
  unfold holds. rewrite Hb', Hh', Hn'. auto.
Qed.

Lemma NewRequest_holds method u u' l m w :
  url_Parse lib u = inl u' -> heap w !! l = Some m ->
  exists w',
    NewRequest lib method u w
    = (Ret (inl {| http.Method := method; http.URL_ := u';
                   http.Header_ := Some (length (heap w)); http.Body := None |}),
       w') /\
    holds l m w w'.
Proof.
  intros Hp Hm. unfold NewRequest. rewrite Hp. eexists. split; [reflexivity|].
  unfold holds. cbn. split_and!; auto. by apply lookup_app_l_Some.
Qed.

Lemma buildRequest_run method u ref w l m u' :
  url_Parse lib u = inl u' ->
  headers (bow w) = Some l ->
  heap w !! l = Some m ->
  exists w',
    buildRequest lib method u ref w
    = (Ret (inl {| http.Method := method; http.URL_ := u';
                   http.Header_ := Some l; http.Body := None |}), w') /\
    holds l (built lib w ref m) w w'.
Proof.
  intros Hp Hh Hm. unfold buildRequest. rewrite bind_run.
  destruct (NewRequest_holds method u u' l m w Hp Hm) as (wa & -> & Ha).
  rewrite bind_run. cbn [get http.Method http.URL_ http.Body http.Header_].
  assert (Hba : bow wa = bow w) by apply Ha. rewrite Hba, Hh.
  rewrite bind_run.
  destruct (Header_Add_holds l "User-Agent" (userAgent (bow w)) m w wa Ha)
    as (wb & -> & Hb).
  rewrite bind_run.
  destruct (logDebug_holds l _ w wb "Setting User-Agent header to %s."
              [LStr (userAgent (bow w))] Hb) as (wc & -> & Hc).
  rewrite bind_run.
  assert (Hattr : attribute wa SendReferer = attribute w SendReferer)
    by (unfold attribute; by rewrite Hba).
  rewrite Hattr. unfold built.
  set (m1 := add_value "User-Agent" (userAgent (bow w)) m) in *.
  set (m2 := match ref with
             | Some r => if attribute w SendReferer
                         then add_value "Referer" r m1 else m1
             | None => m1
             end).
  assert (Hd : exists wd,
             (match ref with
              | Some r =>
                  if attribute w SendReferer
                  then logDebug "Setting Referer header to %s." [LStr r];;
                       Header_Add (Some l) "Referer" r
                  else mret tt
              | None => mret tt
              end) wc = (Ret tt, wd) /\ holds l m2 w wd).
  { subst m2. destruct ref as [r|]; [|by exists wc].
    destruct (attribute w SendReferer); [|by exists wc].
    rewrite bind_run.
    destruct (logDebug_holds l _ w wc "Setting Referer header to %s." [LStr r] Hc)
      as (wc' & -> & Hc').
    by apply Header_Add_holds. }
  destruct Hd as (wd & -> & Hd). rewrite bind_run.
  destruct (negb (String.eqb (Username (auth (bow w))) "")).
  - rewrite bind_run.
    match goal with |- context [logDebug ?msg ?a wd] =>
      destruct (logDebug_holds l _ w wd msg a Hd) as (wd' & -> & Hd')
    end.
    match goal with |- context [Header_Add (Some l) ?k ?v wd'] =>
      destruct (Header_Add_holds l k v _ w wd' Hd') as (we & -> & He)
    end.
    by exists we.
  - by exists wd.
Qed.


Lemma built_User_Agent w ref m :
  values (built lib w ref m) "User-Agent"
  = values m "User-Agent" ++ [userAgent (bow w)].
Proof.
  unfold built.
  destruct (negb _); [rewrite values_add_value_ne by done|];
    (destruct ref as [r|]; [destruct (attribute w SendReferer);
                            [rewrite values_add_value_ne by done|]|]);
    apply values_add_value_eq.
Qed.

Lemma built_Referer w r m :
  attribute w SendReferer = true ->
  values (built lib w (Some r) m) "Referer" = values m "Referer" ++ [r].
Proof.
  intros Ha. unfold built. rewrite Ha.
  destruct (negb _); [rewrite values_add_value_ne by done|];
    rewrite values_add_value_eq, values_add_value_ne by done; done.
Qed.

Lemma built_Authorization w ref m :
  Username (auth (bow w)) <> "" ->
  values (built lib w ref m) "Authorization"
  = values m "Authorization"
    ++ ["Basic " +:+ basicAuth lib (Username (auth (bow w)))
                                   (Password (auth (bow w)))].
Proof.
  intros Hu. unfold built.
  assert (Hne : String.eqb (Username (auth (bow w))) "" = false)
    by (by apply String.eqb_neq).
  rewrite Hne. cbn [negb]. rewrite values_add_value_eq. f_equal.
  destruct ref as [r|]; [destruct (attribute w SendReferer);
                         [rewrite values_add_value_ne by done|]|];
    by rewrite values_add_value_ne.
Qed.

(** C10.  The request [buildRequest] returns holds, as its header map, the
    address of the browser's own headers jar.  Every header added while
    the request is assembled ([User-Agent]; [Referer] when it is sent;
    [Authorization] when credentials are set; [Content-Type] in
    [httpPOST]) is therefore added to the jar, one more value each time:
    the next request is built on the same map, carries what the previous
    ones left, and has [User-Agent] twice. *)
Theorem buildRequest_shares_the_headers_jar method u ref w l m u' :
  url_Parse lib u = inl u' ->
  headers (bow w) = Some l ->
  heap w !! l = Some m ->
  let req := {| http.Method := method; http.URL_ := u';
                http.Header_ := Some l; http.Body := None |} in
  exists w',
    buildRequest lib method u ref w = (Ret (inl req), w') /\
    http.Header_ req = headers (bow w') /\
    header_of w' req = Some (built lib w ref m) /\
    values (built lib w ref m) "User-Agent"
    = values m "User-Agent" ++ [userAgent (bow w)] /\
    (forall r, ref = Some r -> attribute w SendReferer = true ->
               values (built lib w ref m) "Referer" = values m "Referer" ++ [r]) /\
    (Username (auth (bow w)) <> "" ->
     values (built lib w ref m) "Authorization"
     = values m "Authorization"
       ++ ["Basic " +:+ basicAuth lib (Username (auth (bow w)))
                                      (Password (auth (bow w)))]) /\
    (forall ed contentType body,
       method = "POST" ->
       exists wp,
         httpPOST lib ed u ref contentType body w
         = httpRequest lib ed {| http.Method := "POST"; http.URL_ := u';
                                 http.Header_ := Some l; http.Body := body |} wp /\
         headers (bow wp) = Some l /\
         heap wp !! l = Some (add_value "Content-Type" contentType
                                (built lib w ref m))) /\
    (forall method2 u2 u2' ref2,
       url_Parse lib u2 = inl u2' ->
       exists w'',
         buildRequest lib method2 u2 ref2 w'
         = (Ret (inl {| http.Method := method2; http.URL_ := u2';
                        http.Header_ := Some l; http.Body := None |}), w'') /\
         heap w'' !! l = Some (built lib w' ref2 (built lib w ref m)) /\
         values (built lib w' ref2 (built lib w ref m)) "User-Agent"
         = values m "User-Agent" ++ [userAgent (bow w); userAgent (bow w)]).
Proof.
  intros Hp Hh Hm req.
  destruct (buildRequest_run method u ref w l m u' Hp Hh Hm) as (w' & Hrun & Hw').
  destruct Hw' as (Hb & Hn & Hheap).
  exists w'. split; [exact Hrun|]. split_and!.
  - cbn. by rewrite Hb, Hh.
  - unfold header_of. cbn. exact Hheap.
  - apply built_User_Agent.
  - intros r -> Ha. by apply built_Referer.
  - apply built_Authorization.
  - intros ed contentType body ->. unfold httpPOST. rewrite bind_run, Hrun.
    cbn [http.Method http.URL_ http.Header_ http.Body]. subst req. cbn [http.Header_].
    destruct (Header_Add_holds l "Content-Type" contentType _ w w'
                (conj Hb (conj Hn Hheap))) as (wp & Hadd & Hbp & _ & Hmp).
    exists wp. rewrite bind_run, Hadd. split_and!; auto. by rewrite Hbp.
  - intros method2 u2 u2' ref2 Hp2.
    destruct (buildRequest_run method2 u2 ref2 w' l (built lib w ref m) u2' Hp2)
      as (w'' & Hrun2 & _ & _ & Hheap2); [by rewrite Hb|exact Hheap|].
    exists w''. split_and!; auto.
    rewrite built_User_Agent, built_User_Agent, Hb, <- app_assoc. done.
Qed.

End HeadersClaims.

(** ** The properties at work in a small world *)

Lemma PreRequest_error_aborts_navigation_witness :
  doPreRequest demo.guarded demo.home (demo.world [])
  = (Ret (Some (HandlerFailure "vetoed")), demo.world []) /\
  fst (httpRequest demo.lib demo.guarded demo.home (demo.world []))
  = Ret (Some (HandlerFailure "vetoed")).
Proof.
  assert (H : doPreRequest demo.guarded demo.home (demo.world [])
              = (Ret (Some (HandlerFailure "vetoed")), demo.world []))
    by (vm_compute; reflexivity).
  split; [exact H|].
  exact (proj1 (PreRequest_error_aborts_navigation demo.lib _ _ _ _ _ H)).
Defined.

Lemma PostRequest_error_keeps_commit_witness :
  doPreRequest demo.checked demo.home demo.one_page = (Ret None, demo.one_page) /\
  contact_transport demo.home demo.one_page
  = (Ret (inl (demo.response "forms")),
     snd (contact_transport demo.home demo.one_page)) /\
  fst (httpRequest demo.lib demo.checked demo.home demo.one_page)
  = Ret (Some (HandlerFailure "vetoed")) /\
  state (bow (snd (httpRequest demo.lib demo.checked demo.home demo.one_page)))
  = Some (jar.NewHistoryState demo.home (demo.response "forms") (demo.page "forms")).
Proof.
  assert (H1 : doPreRequest demo.checked demo.home demo.one_page
               = (Ret None, demo.one_page)) by (vm_compute; reflexivity).
  assert (H2 : contact_transport demo.home demo.one_page
               = (Ret (inl (demo.response "forms")),
                  snd (contact_transport demo.home demo.one_page)))
    by (vm_compute; reflexivity).
  assert (H3 : goquery_NewDocumentFromResponse demo.lib (demo.response "forms")
               = inl (demo.page "forms")) by reflexivity.
  assert (H4 : doPostRequest demo.checked (demo.response "forms")
                 (committed demo.lib demo.home (demo.response "forms")
                    (demo.page "forms")
                    (snd (contact_transport demo.home demo.one_page)))
               = (Ret (Some (HandlerFailure "vetoed")),
                  committed demo.lib demo.home (demo.response "forms")
                    (demo.page "forms")
                    (snd (contact_transport demo.home demo.one_page))))
    by (vm_compute; reflexivity).
  pose proof (PostRequest_error_keeps_commit demo.lib _ _ _ _ _ _ _ _ _ H1 H2 H3 H4)
    as (Hr & Hl & Hs & _).
  split_and!; [exact H1|exact H2|exact Hr|].
  destruct Hl as (Hb & _). by rewrite Hb.
Defined.

Lemma redirect_disabled_aborts_navigation_witness :
  doPreRequest demo.dispatcher demo.home demo.redirecting
  = (Ret None, demo.redirecting) /\
  attribute demo.redirecting FollowRedirects = false /\
  fst (httpRequest demo.lib demo.dispatcher demo.home demo.redirecting)
  = Ret (Some (UrlError "GET" "http://b/"
                 (Location "Redirects are disabled. Cannot follow 'http://b/'."))) /\
  history (bow (snd (httpRequest demo.lib demo.dispatcher demo.home demo.redirecting)))
  = history (bow demo.redirecting).
Proof.
  assert (H1 : doPreRequest demo.dispatcher demo.home demo.redirecting
               = (Ret None, demo.redirecting)) by (vm_compute; reflexivity).
  assert (H2 : attribute demo.redirecting FollowRedirects = false)
    by (vm_compute; reflexivity).
  assert (H3 : net demo.redirecting
               = ReplyRedirect 302 "http://b/"
                 :: [ReplyPage (demo.response "forms")]) by reflexivity.
  pose proof (redirect_disabled_aborts_navigation demo.lib _ _ _ _ _ _ _ H1 H2 H3)
    as (_ & Hr & _ & Hh & _).
  split_and!; [exact H1|exact H2|exact Hr|exact Hh].
Defined.

Lemma history_records_each_navigation_witness :
  navigate demo.lib demo.dispatcher [demo.home; demo.next] demo.two_pages
  = (Ret [None; None],
     demo.after demo.dispatcher [demo.home; demo.next] demo.two_pages) /\
  jar.Len (history (bow (demo.after demo.dispatcher [demo.home; demo.next]
                           demo.two_pages))) = 2 /\
  history (bow (committed demo.lib demo.home (demo.response "refresh")
                  (demo.page "refresh")
                  (snd (contact_transport demo.home demo.two_pages))))
  = [None].
Proof.
  assert (Hrun : navigate demo.lib demo.dispatcher [demo.home; demo.next]
                   demo.two_pages
                 = (Ret [None; None],
                    demo.after demo.dispatcher [demo.home; demo.next]
                      demo.two_pages))
    by (vm_compute; reflexivity).
  assert (Hpre : Forall keeps_session (bound demo.dispatcher PreRequest))
    by (vm_compute; constructor).
  assert (Hpost : Forall keeps_session (bound demo.dispatcher PostRequest)).
  { change (bound demo.dispatcher PostRequest)
      with [fun e s a => HandleEvent demo.recorder e s a].
    constructor; [|constructor]. intros e s a w0. split; reflexivity. }
  assert (H1 : doPreRequest demo.dispatcher demo.home demo.two_pages
               = (Ret None, demo.two_pages)) by (vm_compute; reflexivity).
  assert (H2 : contact_transport demo.home demo.two_pages
               = (Ret (inl (demo.response "refresh")),
                  snd (contact_transport demo.home demo.two_pages)))
    by (vm_compute; reflexivity).
  destruct (history_records_each_navigation demo.lib demo.dispatcher)
    as (Hone & Hmany & Hnew).
  destruct (Hone demo.home demo.two_pages demo.two_pages (demo.response "refresh")
              _ (demo.page "refresh") H1 H2 eq_refl) as (Hpush & _).
  destruct (Hmany Hpre Hpost) as (_ & Hseq).
  destruct (Hseq [demo.home; demo.next] demo.two_pages _ _ Hrun) as (_ & Hlen);
    [repeat constructor|].
  split_and!; [exact Hrun|exact (Hlen (Hnew _ _ _))|exact Hpush].
Defined.

Lemma Back_pops_above_the_floor_witness :
  well_formed demo.visited /\
  fst (Back demo.visited) = Ret true /\
  Back (demo.world []) = (Ret false, demo.world []).
Proof.
  assert (Hwf : well_formed demo.visited).
  { split.
    - intros _. eexists _, _. split; reflexivity.
    - intros [|[|i]] p Hp Hi; cbn in Hi; [|lia..].
      injection Hp as <-. eexists _, _. split; reflexivity. }
  assert (Hlen : 1 < jar.Len (history (bow demo.visited))) by (cbn; lia).
  assert (Hlen0 : jar.Len (history (bow (demo.world []))) <= 1) by (cbn; lia).
  split; [exact Hwf|]. split.
  - destruct (proj1 (proj2 (Back_pops_above_the_floor demo.visited)) Hlen)
      as (top & rest & _ & _ & _ & _ & Htrue).
    exact (Htrue Hwf).
  - exact (proj1 (Back_pops_above_the_floor (demo.world [])) Hlen0).
Defined.

Lemma refresh_timer_is_stopped_and_single_witness :
  doPreRequest demo.dispatcher demo.next demo.refreshing
  = (Ret None, demo.refreshing) /\
  one_timer demo.refreshing /\
  pending demo.refreshing = 1 /\
  pending (snd (contact_transport demo.next demo.refreshing)) = 0 /\
  handleMetaRefresh demo.lib demo.bad_refresh = (Ret tt, demo.bad_refresh).
Proof.
  assert (H1 : doPreRequest demo.dispatcher demo.next demo.refreshing
               = (Ret None, demo.refreshing)) by (vm_compute; reflexivity).
  assert (Hone : one_timer demo.refreshing).
  { intros [|t] [d Hd]; [reflexivity|]. exfalso. vm_compute in Hd.
    destruct t; discriminate. }
  pose proof (refresh_timer_is_stopped_and_single demo.lib _ _ _ _ H1 Hone)
    as (_ & _ & Hp & _ & Hbad).
  split_and!; [exact H1|exact Hone|reflexivity|exact Hp|].
  eapply Hbad; vm_compute; reflexivity.
Defined.

Lemma Forms_returns_nil_placeholders_then_forms_witness :
  state (bow demo.on_forms)
  = Some (jar.NewHistoryState demo.home (demo.response "forms") (demo.page "forms")) /\
  exists forms,
    Forms demo.lib demo.dispatcher demo.on_forms = (Ret (Some forms), demo.on_forms) /\
    length forms = 4 /\ take 2 forms = [None; None].
Proof.
  assert (Hs : state (bow demo.on_forms)
               = Some (jar.NewHistoryState demo.home (demo.response "forms")
                         (demo.page "forms"))) by (vm_compute; reflexivity).
  split; [exact Hs|].
  destruct (proj2 (Forms_returns_nil_placeholders_then_forms demo.lib
                     demo.dispatcher demo.on_forms _ _ Hs eq_refl))
    as (forms & Hrun & _ & Hlen & Htake & _); [cbn; lia|].
  exists forms. split_and!; [exact Hrun|exact Hlen|exact Htake].
Defined.

Lemma buildRequest_shares_the_headers_jar_witness :
  url_Parse demo.lib "http://a/" = inl "http://a/" /\
  headers (bow (demo.world [])) = Some 0 /\
  heap (demo.world []) !! 0 = Some ∅ /\
  exists w',
    buildRequest demo.lib "GET" "http://a/" None (demo.world [])
    = (Ret (inl demo.home), w') /\
    http.Header_ demo.home = headers (bow w') /\
    values (built demo.lib (demo.world []) None ∅) "User-Agent" = ["surf"].
Proof.
  split_and!; [reflexivity..|].
  destruct (buildRequest_shares_the_headers_jar demo.lib "GET" "http://a/" None
              (demo.world []) 0 ∅ "http://a/" eq_refl eq_refl eq_refl)
    as (w' & Hrun & Hsame & _ & Hua & _).
  exists w'. split_and!; [exact Hrun|exact Hsame|exact Hua].
Defined.

(** The scenarios of section 8 of the specification. *)

Example scenario_open_open_back :
  history (bow (demo.after demo.dispatcher [demo.home] demo.two_pages)) = [None] /\
  history (bow (demo.after demo.dispatcher [demo.home; demo.next] demo.two_pages))
  = [Some (jar.NewHistoryState demo.home (demo.response "refresh")
             (demo.page "refresh")); None] /\
  fst (Back (demo.after demo.dispatcher [demo.home; demo.next] demo.two_pages))
  = Ret true /\
  bow (snd (Back (demo.after demo.dispatcher [demo.home; demo.next] demo.two_pages)))
  = bow (demo.after demo.dispatcher [demo.home] demo.two_pages).
Proof. vm_compute. done. Qed.

Example scenario_refresh_timer :
  timers demo.refreshing = [time.Armed 2000000000] /\
  timers (demo.after demo.dispatcher [demo.next] demo.refreshing) = [time.Stopped] /\
  timers demo.bad_refresh = [].
Proof. vm_compute. done. Qed.

Example scenario_headers_accumulate :
  (fun w => ((fun m => values m "User-Agent") <$> heap w !! 0,
             (fun m => values m "Content-Type") <$> heap w !! 0,
             sends (trace w)))
    (snd ((Post demo.lib demo.dispatcher "http://a/" "text/plain" (Some "x");;
           Open demo.lib demo.dispatcher "http://a/b") demo.two_pages))
  = (Some ["surf"; "surf"], Some ["text/plain"],
     [ESend {| http.Method := "POST"; http.URL_ := "http://a/";
               http.Header_ := Some 0; http.Body := Some "x" |}
             (Some (add_value "Content-Type" "text/plain"
                      (add_value "User-Agent" "surf" ∅)));
      ESend {| http.Method := "GET"; http.URL_ := "http://a/b";
               http.Header_ := Some 0; http.Body := None |}
             (Some (add_value "User-Agent" "surf"
                      (add_value "Content-Type" "text/plain"
                         (add_value "User-Agent" "surf" ∅))))]).
Proof. vm_compute. done. Qed.

(** * Further properties of the code *)

(** ** The dispatcher *)

Lemma range_handlers_app {W Any} (hs1 hs2 : list (HandlerFunc W Any))
      (e : Event) (sender args : Any) (w : W) :
  range_handlers (hs1 ++ hs2) e sender args w =
  (err ← range_handlers hs1 e sender args;
   match err with
   | Some _ => mret err
   | None => range_handlers hs2 e sender args
   end) w.
Proof.
  revert w. induction hs1 as [|h hs1 IH]; intros w; [done|].
  cbn [app range_handlers]. rewrite !bind_run.
  destruct (h e sender args w) as [[[err|]|msg] w1]; [done| |done].
  rewrite IH. by rewrite bind_run.
Qed.

(** X1.  Binding a handler to an event, with [OnFunc] or with [On],
    changes nothing for the dispatch of any other event: the new handler
    is not called for it and the handlers bound to it are the same. *)
Theorem binding_leaves_other_events_alone {W Any} (ed : Dispatcher W Any)
        (e e' : Event) (h : HandlerFunc W Any) (handler : Handler W Any)
        (sender args : Any) :
  e <> e' ->
  bound (OnFunc ed e h) e' = bound ed e' /\
  bound (On ed e handler) e' = bound ed e' /\
  Do (OnFunc ed e h) e' sender args = Do ed e' sender args /\
  Do (On ed e handler) e' sender args = Do ed e' sender args.
Proof.
  intros Hne.
  assert (H1 : bound (OnFunc ed e h) e' = bound ed e')
    by (by apply bound_OnFunc_ne).
  assert (H2 : bound (On ed e handler) e' = bound ed e').
  { unfold bound, On; cbn. by rewrite lookup_insert_ne. }
  unfold Do. rewrite H1, H2. done.
Qed.

Lemma binding_leaves_other_events_alone_witness :
  PreRequest <> PostRequest /\
  Do (OnFunc demo.dispatcher PreRequest demo.veto) PostRequest VBrowser VNil
  = Do demo.dispatcher PostRequest VBrowser VNil.
Proof.
  assert (Hne : PreRequest <> PostRequest) by discriminate.
  split; [exact Hne|].
  exact (proj1 (proj2 (proj2
           (binding_leaves_other_events_alone demo.dispatcher PreRequest
              PostRequest demo.veto demo.recorder VBrowser VNil Hne)))).
Defined.

(** X2.  A handler bound to an event runs after the handlers bound to it
    before, and only when all of them returned nil: the dispatch after
    [OnFunc] (or [On]) is the dispatch before it, followed, on nil, by
    the new handler, whose answer is then the answer of the dispatch. *)
Theorem Do_runs_a_new_handler_last {W Any} (ed : Dispatcher W Any) (e : Event)
        (h : HandlerFunc W Any) (handler : Handler W Any)
        (sender args : Any) (w : W) :
  Do (OnFunc ed e h) e sender args w =
  (err ← Do ed e sender args;
   match err with
   | Some _ => mret err
   | None => h e sender args
   end) w /\
  Do (On ed e handler) e sender args w =
  (err ← Do ed e sender args;
   match err with
   | Some _ => mret err
   | None => HandleEvent handler e sender args
   end) w.
Proof.
  unfold Do. rewrite bound_OnFunc_eq, bound_On_eq, !range_handlers_app, !bind_run.
  destruct (range_handlers (bound ed e) e sender args w) as [[[err|]|msg] w1];
    try done.
  cbn [range_handlers]. rewrite !bind_run.
  split.
  - destruct (h e sender args w1) as [[[err|]|msg] w2]; done.
  - destruct (HandleEvent handler e sender args w1) as [[[err|]|msg] w2]; done.
Qed.

(** ** Failed and repeated navigations *)

Section NavigationFacts.
Context (lib : Collaborators).
Implicit Types (w : World) (ed : Dispatcher World Value) (req : http.Request).

Lemma transport_error_frame ed req w w1 e w2 :
  doPreRequest ed req w = (Ret None, w1) ->
  contact_transport req w1 = (Ret (inr e), w2) ->
  let out := httpRequest lib ed req w in
  fst out = Ret (Some e) /\
  logs_only w2 (snd out) /\
  bow (snd out) = bow w1 /\
  heap (snd out) = heap w1 /\
  timers (snd out) = timers (refresh_stopped w1) /\
  (one_timer w1 -> pending (snd out) = 0).
Proof.
  intros H1 H2 out. subst out.
  rewrite (httpRequest_transport_failed lib _ _ _ _ _ _ H1 H2).
  destruct (logError_run e w2) as (w' & -> & Hl). cbn [fst snd].
  destruct (contact_transport_frame req w1) as (r & w2' & Hrun & Hb & Hh & Ht).
  rewrite H2 in Hrun. injection Hrun as <- <-.
  pose proof Hl as (Hb' & Hh' & Ht' & _).
  split_and!; auto; try congruence.
  intros Hone. apply pending_zero. intros t [d Hd].
  apply (refresh_stopped_disarms w1 Hone t). exists d. congruence.
Qed.

(** X3.  When the transport fails, [httpRequest] returns its error and
    commits nothing: state, history and header maps are as the
    [PreRequest] handlers left them.  The refresh timer has been stopped
    all the same, so that no timer is pending after the failed
    navigation when the browser's timer was the only one that could
    be. *)
Theorem transport_error_commits_nothing ed req w w1 e w2 :
  doPreRequest ed req w = (Ret None, w1) ->
  contact_transport req w1 = (Ret (inr e), w2) ->
  let out := httpRequest lib ed req w in
  fst out = Ret (Some e) /\
  logs_only w2 (snd out) /\
  bow (snd out) = bow w1 /\
  heap (snd out) = heap w1 /\
  timers (snd out) = timers (refresh_stopped w1) /\
  (one_timer w1 -> pending (snd out) = 0).
Proof. apply transport_error_frame. Qed.

Lemma parse_error_frame ed req w w1 resp w2 e :
  doPreRequest ed req w = (Ret None, w1) ->
  contact_transport req w1 = (Ret (inl resp), w2) ->
  goquery_NewDocumentFromResponse lib resp = inr e ->
  let out := httpRequest lib ed req w in
  fst out = Ret (Some e) /\
  logs_only w2 (snd out) /\
  state (bow (snd out)) = state (bow w1) /\
  history (bow (snd out)) = history (bow w1) /\
  timers (snd out) = timers (refresh_stopped w1).
Proof.
  intros H1 H2 H3 out. subst out.
  rewrite (httpRequest_pre_ok lib _ _ _ _ H1), (bind_ret_run _ _ _ _ _ H2).
  destruct (logInfo_run "Received %d response." [LInt (http.StatusCode resp)] w2)
    as (w0 & Hrun0 & Hl0).
  rewrite (bind_ret_run _ _ _ _ _ Hrun0), H3.
  destruct (logError_run e w0) as (w' & -> & Hl). cbn [fst snd].
  pose proof (logs_only_trans _ _ _ Hl0 Hl) as Hl2.
  destruct (contact_transport_frame req w1) as (r & w2' & Hrun & Hb & Hh & Ht).
  rewrite H2 in Hrun. injection Hrun as <- <-.
  pose proof Hl2 as (Hb' & _ & Ht' & _).
  split_and!; auto; congruence.
Qed.

(** X4.  When the response does not parse into a document, [httpRequest]
    returns the parser's error after the exchange: the request has gone
    out and the answer is consumed, but nothing is committed and the
    [PostRequest] handlers are not called. *)
Theorem parse_error_commits_nothing ed req w w1 resp w2 e :
  doPreRequest ed req w = (Ret None, w1) ->
  contact_transport req w1 = (Ret (inl resp), w2) ->
  goquery_NewDocumentFromResponse lib resp = inr e ->
  let out := httpRequest lib ed req w in
  fst out = Ret (Some e) /\
  logs_only w2 (snd out) /\
  state (bow (snd out)) = state (bow w1) /\
  history (bow (snd out)) = history (bow w1) /\
  timers (snd out) = timers (refresh_stopped w1).
Proof. apply parse_error_frame. Qed.

(** What a navigation does to the session, whatever its outcome. *)
Lemma httpRequest_session ed req w :
  Forall keeps_session (bound ed PreRequest) ->
  Forall keeps_session (bound ed PostRequest) ->
  let w' := snd (httpRequest lib ed req w) in
  (state (bow w') = state (bow w) /\ history (bow w') = history (bow w)) \/
  (history (bow w') = jar.Push (history (bow w)) (state (bow w)) /\
   exists resp dom, state (bow w') = Some (jar.NewHistoryState req resp dom)).
Proof.
  intros Hpre Hpost w'. subst w'.
  destruct (doPreRequest_keeps_session ed req w Hpre) as [Hs1 Hh1].
  destruct (doPreRequest ed req w) as [[[e|]|msg] w1] eqn:H1; cbn [snd] in *.
  - left. rewrite (httpRequest_pre_failed lib _ _ _ _ _ H1).
    destruct (logError_run e w1) as (w' & -> & Hb & _). cbn. by rewrite Hb.
  - destruct (contact_transport_frame req w1) as (r & w2 & H2 & Hb2 & _).
    destruct r as [resp|e].
    + destruct (goquery_NewDocumentFromResponse lib resp) as [dom|e] eqn:H3.
      * right. rewrite (httpRequest_committed lib _ _ _ _ _ _ _ H1 H2 H3), bind_run.
        destruct (committed_session lib req resp dom w2) as [Hs3 Hh3].
        destruct (doPostRequest_keeps_session ed resp
                    (committed lib req resp dom w2) Hpost) as [Hs4 Hh4].
        assert (Hgoal : forall w4,
                  state (bow w4) = state (bow (committed lib req resp dom w2)) ->
                  history (bow w4) = history (bow (committed lib req resp dom w2)) ->
                  history (bow w4) = jar.Push (history (bow w)) (state (bow w)) /\
                  exists resp dom,
                    state (bow w4) = Some (jar.NewHistoryState req resp dom)).
        { intros w4 -> ->. rewrite Hs3, Hh3, Hb2, Hs1, Hh1. eauto. }
        destruct (doPostRequest ed resp _) as [[[e|]|msg] w4]; cbn [snd] in *.
        -- destruct (logError_run e w4) as (w' & -> & Hb & _). cbn [snd].
           apply Hgoal; by rewrite Hb.
        -- by apply Hgoal.
        -- by apply Hgoal.
      * left. destruct (parse_error_frame ed req w w1 resp w2 e H1 H2 H3)
          as (_ & _ & -> & -> & _). auto.
    + left. destruct (transport_error_frame ed req w w1 e w2 H1 H2)
        as (_ & _ & -> & _). auto.
  - left. unfold httpRequest. rewrite (bind_panic_run _ _ _ _ _ H1). auto.
Qed.

End NavigationFacts.

Section HistoryFacts.
Context (lib : Collaborators).
Implicit Types (w : World) (ed : Dispatcher World Value) (req : http.Request).

(** X5.  [Reload] is a navigation like any other: when it returns nil the
    page that was current is pushed onto the history and the new state
    is built on the same request, so that each reload makes the history
    one longer. *)
Theorem Reload_pushes_the_page_it_reloads ed w st req w' :
  Forall keeps_session (bound ed PreRequest) ->
  Forall keeps_session (bound ed PostRequest) ->
  state (bow w) = Some st ->
  jar.Request st = Some req ->
  Reload lib ed w = (Ret None, w') ->
  history (bow w') = Some st :: history (bow w) /\
  jar.Len (history (bow w')) = S (jar.Len (history (bow w))) /\
  exists resp dom, state (bow w') = Some (jar.NewHistoryState req resp dom).
Proof.
  intros Hpre Hpost Hs Hr Hrun.
  rewrite (Reload_reissues_request lib ed w st req Hs Hr), bind_run in Hrun.
  destruct (logDebug_run "Reloading page %s." [LStr (http.URL_ req)] w)
    as (w0 & Hlog & Hb & _).
  rewrite Hlog in Hrun.
  destruct (httpRequest_nil_session lib ed req w0 w' Hpre Hpost Hrun)
    as (Hh & resp & dom & Hs').
  rewrite Hb, Hs in Hh. unfold jar.Push in Hh. rewrite Hh.
  split_and!; eauto.
Qed.

(** X6.  [Back] undoes a navigation: after a navigation that returned nil
    from a loaded page with a history, [Back] returns true and the state
    and the history are those from before the navigation.  After the
    first navigation of a browser with an empty history there is no way
    back: [Back] returns false and changes nothing. *)
Theorem Back_undoes_a_navigation ed req w w' :
  Forall keeps_session (bound ed PreRequest) ->
  Forall keeps_session (bound ed PostRequest) ->
  httpRequest lib ed req w = (Ret None, w') ->
  (history (bow w) <> [] -> loaded (state (bow w)) ->
   fst (Back w') = Ret true /\
   state (bow (snd (Back w'))) = state (bow w) /\
   history (bow (snd (Back w'))) = history (bow w)) /\
  (history (bow w) = [] -> Back w' = (Ret false, w')).
Proof.
  intros Hpre Hpost Hrun.
  destruct (httpRequest_nil_session lib ed req w w' Hpre Hpost Hrun) as (Hh & _).
  unfold jar.Push in Hh. split.
  - intros Hne Hld.
    destruct (Back_pop_any w' (state (bow w)) (history (bow w)) Hh Hne)
      as (r & w'' & -> & Hl & _ & Hr).
    cbn [fst snd]. destruct Hl as (Hb & _). rewrite Hb. cbn. auto.
  - intros Hnil. apply Back_floor. rewrite Hh, Hnil. cbn. lia.
Qed.

Lemma well_formed_session w w' :
  state (bow w') = state (bow w) -> history (bow w') = history (bow w) ->
  well_formed w -> well_formed w'.
Proof. unfold well_formed. intros -> ->. done. Qed.

Lemma well_formed_push w w' st :
  state (bow w') = Some st -> jar.Request st <> None ->
  history (bow w') = jar.Push (history (bow w)) (state (bow w)) ->
  well_formed w -> well_formed w'.
Proof.
  intros Hs Hr Hh [Hcur Hold]. split; rewrite ?Hs, ?Hh.
  - intros _. destruct (jar.Request st) as [rq|] eqn:Hrq; [|done]. by exists st, rq.
  - unfold jar.Push. intros [|i] p Hp Hi; cbn in *.
    + injection Hp as <-. apply Hcur. destruct (history (bow w)); [cbn in Hi; lia|done].
    + apply (Hold i p Hp). lia.
Qed.

(** X7.  Navigation keeps the browser well formed, whatever its outcome
    (success, an error at any stage, or a panic of a handler): the
    entries of the history above the oldest stay loaded states, and so
    does the current state once the history has an entry.  With this,
    [Back] never meets a nil state above the floor. *)
Theorem navigation_keeps_well_formed ed req w :
  Forall keeps_session (bound ed PreRequest) ->
  Forall keeps_session (bound ed PostRequest) ->
  well_formed w ->
  well_formed (snd (httpRequest lib ed req w)) /\
  well_formed (snd (Back (snd (httpRequest lib ed req w)))).
Proof.
  intros Hpre Hpost Hwf.
  assert (Hwf' : well_formed (snd (httpRequest lib ed req w))).
  { destruct (httpRequest_session lib ed req w Hpre Hpost)
      as [[Hs Hh]|(Hh & resp & dom & Hs)].
    - by apply (well_formed_session w).
    - by apply (well_formed_push w _ _ Hs). }
  split; [exact Hwf'|]. by apply Back_well_formed.
Qed.

(** X8.  [Back] leaves the refresh timer alone: it neither stops the timer
    the browser holds nor arms one, so a refresh that is pending for the
    page that is left stays pending; and it touches no header map. *)
Theorem Back_leaves_the_refresh_timer w :
  timers (snd (Back w)) = timers w /\
  refresh (bow (snd (Back w))) = refresh (bow w) /\
  pending (snd (Back w)) = pending w /\
  heap (snd (Back w)) = heap w /\
  headers (bow (snd (Back w))) = headers (bow w).
Proof.
  assert (H : timers (snd (Back w)) = timers w /\
              refresh (bow (snd (Back w))) = refresh (bow w) /\
              heap (snd (Back w)) = heap w /\
              headers (bow (snd (Back w))) = headers (bow w)).
  { destruct (history (bow w)) as [|top [|p rest]] eqn:Hh.
    - by rewrite Back_floor by (rewrite Hh; cbn; lia).
    - by rewrite Back_floor by (rewrite Hh; cbn; lia).
    - destruct (Back_pop_any w top (p :: rest) Hh) as (r & w' & -> & Hl & _); [done|].
      cbn [snd]. destruct Hl as (Hb & Hheap & Ht & _). by rewrite Hb, Hheap, Ht. }
  destruct H as (Ht & Hr & Hh & Hhd). unfold pending. rewrite Ht. auto.
Qed.

End HistoryFacts.

(** ** Building requests *)

Section RequestFacts.
Context (lib : Collaborators).
Implicit Types (w : World) (ed : Dispatcher World Value) (m : Header).

Lemma NewRequest_run method u u' w :
  url_Parse lib u = inl u' ->
  NewRequest lib method u w
  = (Ret (inl {| http.Method := method; http.URL_ := u';
                 http.Header_ := Some (length (heap w)); http.Body := None |}),
     set_heap (heap w ++ [∅]) w).
Proof. intros Hp. unfold NewRequest. by rewrite Hp. Qed.

Lemma buildRequest_nil_headers method u ref w u' :
  headers (bow w) = None -> url_Parse lib u = inl u' ->
  buildRequest lib method u ref w
  = (Panic nil_map_write, set_heap (heap w ++ [∅]) w).
Proof.
  intros Hh Hp. unfold buildRequest.
  rewrite (bind_ret_run _ _ _ _ _ (NewRequest_run method u u' w Hp)).
  rewrite bind_run. cbn [get bow set_heap]. rewrite Hh. reflexivity.
Qed.

(** X9.  A browser whose headers jar was never set cannot build a
    request: [buildRequest] stores the nil map in the request and panics
    on the first header it adds, and so do [httpGET], [httpPOST], [Open]
    and [Post]; no event is dispatched and no request goes out. *)
Theorem nil_headers_jar_panics ed u ref contentType body w u' :
  headers (bow w) = None ->
  url_Parse lib u = inl u' ->
  url_Parse lib u' = inl u' ->
  fst (buildRequest lib "GET" u ref w) = Panic nil_map_write /\
  fst (httpGET lib ed u ref w) = Panic nil_map_write /\
  fst (httpPOST lib ed u ref contentType body w) = Panic nil_map_write /\
  fst (Open lib ed u w) = Panic nil_map_write /\
  fst (Post lib ed u contentType body w) = Panic nil_map_write /\
  trace (snd (Open lib ed u w)) = trace w /\
  net (snd (Open lib ed u w)) = net w /\
  bow (snd (Open lib ed u w)) = bow w.
Proof.
  intros Hh Hp Hp'.
  assert (Hget : httpGET lib ed u' None w
                 = (Panic nil_map_write, set_heap (heap w ++ [∅]) w)).
  { unfold httpGET.
    by rewrite (bind_panic_run _ _ _ _ _
                  (buildRequest_nil_headers "GET" u' None w u' Hh Hp')). }
  unfold httpGET, httpPOST, Open, Post. rewrite Hp.
  fold (httpGET lib ed u' None). rewrite Hget.
  unfold httpPOST.
  rewrite (bind_panic_run _ _ _ _ _
             (buildRequest_nil_headers "POST" u' None w u' Hh Hp')).
  rewrite !(bind_panic_run _ _ _ _ _
              (buildRequest_nil_headers _ u ref w u' Hh Hp)).
  rewrite (buildRequest_nil_headers "GET" u ref w u' Hh Hp).
  cbn. split_and!; reflexivity.
Qed.

(** X10.  A URL that does not parse is refused before anything happens:
    [Open], [OpenForm], [Post] and [PostForm] return the parser's error
    and leave the world, the headers jar included, exactly as it was;
    so do [httpGET] and [httpPOST] when the request cannot be made. *)
Theorem unparsable_url_changes_nothing ed u ref data contentType body e w :
  url_Parse lib u = inr e ->
  Open lib ed u w = (Ret (Some e), w) /\
  OpenForm lib ed u data w = (Ret (Some e), w) /\
  Post lib ed u contentType body w = (Ret (Some e), w) /\
  PostForm lib ed u data w = (Ret (Some e), w) /\
  httpGET lib ed u ref w = (Ret (Some e), w) /\
  httpPOST lib ed u ref contentType body w = (Ret (Some e), w).
Proof.
  intros Hp. unfold PostForm, Open, OpenForm, Post, httpGET, httpPOST, buildRequest,
    NewRequest.
  rewrite Hp. split_and!; reflexivity.
Qed.

Lemma values_add_value k k' v m :
  values (add_value k v m) k' = values m k' ++ (if decide (k = k') then [v] else []).
Proof.
  destruct (decide (k = k')) as [->|Hne].
  - apply values_add_value_eq.
  - rewrite values_add_value_ne by done. by rewrite app_nil_r.
Qed.

Lemma built_Referer_values w ref m :
  values (built lib w ref m) "Referer"
  = values m "Referer"
    ++ match ref with
       | Some r => if attribute w SendReferer then [r] else []
       | None => []
       end.
Proof.
  unfold built.
  destruct (negb _); [rewrite values_add_value_ne by done|];
    (destruct ref as [r|]; [destruct (attribute w SendReferer)|]);
    rewrite ?values_add_value_eq, ?values_add_value_ne by done;
    by rewrite ?app_nil_r.
Qed.

(** X11.  [buildRequest] adds a [Referer] value exactly when it is given a
    referer and [SendReferer] is on; otherwise the values of [Referer]
    in the jar are what they were, so a request built without referer
    (as for [Open]) still carries the [Referer] values that earlier
    requests left in the jar. *)
Theorem Referer_is_added_only_with_a_referer method u ref w l m u' :
  url_Parse lib u = inl u' ->
  headers (bow w) = Some l ->
  heap w !! l = Some m ->
  let req := {| http.Method := method; http.URL_ := u';
                http.Header_ := Some l; http.Body := None |} in
  exists w' sent,
    buildRequest lib method u ref w = (Ret (inl req), w') /\
    header_of w' req = Some sent /\
    values sent "Referer"
    = values m "Referer"
      ++ match ref with
         | Some r => if attribute w SendReferer then [r] else []
         | None => []
         end /\
    (ref = None -> values sent "Referer" = values m "Referer") /\
    (attribute w SendReferer = false -> values sent "Referer" = values m "Referer").
Proof.
  intros Hp Hh Hm req.
  destruct (buildRequest_run lib method u ref w l m u' Hp Hh Hm)
    as (w' & Hrun & _ & _ & Hheap).
  exists w', (built lib w ref m). split; [exact Hrun|]. split; [exact Hheap|].
  rewrite built_Referer_values. split_and!; [done| |].
  - intros ->. by rewrite app_nil_r.
  - intros ->. destruct ref; by rewrite app_nil_r.
Qed.

End RequestFacts.

(** ** The elements of the page *)

Section PageFacts.
Context (lib : Collaborators) (Text : goquery.Selection -> string).
Implicit Types (w : World) (ed : Dispatcher World Value).

Lemma Find_run expr w st dom :
  state (bow w) = Some st -> jar.Dom st = Some dom ->
  Find lib expr w = (Ret (goquery_Find lib dom expr), w).
Proof. intros Hs Hd. unfold Find. by rewrite Hs, Hd. Qed.

Lemma Url_run w st rq :
  state (bow w) = Some st -> jar.Request st = Some rq ->
  Url w = (Ret (http.URL_ rq), w).
Proof. intros Hs Hr. unfold Url. by rewrite Hs, Hr. Qed.

Lemma attrToResolvedUrl_run name sel w st rq :
  state (bow w) = Some st -> jar.Request st = Some rq ->
  attrToResolvedUrl lib name sel w
  = (Ret (match goquery.Attr sel name with
          | None => inr (AttributeNotFound
                           ("Attribute '" +:+ name +:+ "' not found."))
          | Some src =>
              match url_Parse lib src with
              | inr err => inr err
              | inl ur => inl (url_ResolveReference lib (http.URL_ rq) ur)
              end
          end), w).
Proof.
  intros Hs Hr. unfold attrToResolvedUrl.
  destruct (goquery.Attr sel name) as [src|]; [|done].
  destruct (url_Parse lib src) as [ur|err]; [|done].
  unfold ResolveUrl. repeat rewrite bind_run. by rewrite (Url_run w st rq Hs Hr).
Qed.

(** A loop that appends at most one entry per element and leaves the
    world alone collects the entries in document order. *)
Lemma each_from_collect {A} (g : goquery.Node -> option A)
      (f : nat -> goquery.Selection -> list A -> M World (list A)) w :
  (forall i n acc, f i [n] acc w = (Ret (acc ++ option_list (g n)), w)) ->
  forall sel i acc,
    each_from i sel f acc w = (Ret (acc ++ omap g sel), w).
Proof.
  intros Hf. induction sel as [|n sel IH]; intros i acc; cbn.
  - by rewrite app_nil_r.
  - rewrite bind_run, Hf, IH, <- app_assoc. by destruct (g n).
Qed.


Ltac collect Hs Hd Hr :=
  rewrite bind_run, (Find_run _ _ _ _ Hs Hd); unfold EachM;
  match goal with
  | |- _ = (Ret (omap ?g _), _) => rewrite (each_from_collect g); [done|]
  end;
  intros i n acc; unfold resolved;
  repeat rewrite bind_run; rewrite ?(attrToResolvedUrl_run _ _ _ _ _ Hs Hr).

(** X12.  On a page that is loaded, [Links], [Images] and [Scripts] return
    one asset for each matched element whose [href] (or [src]) attribute
    is present and parses, in document order, with its URL resolved
    against the URL of the page; elements without such an attribute are
    left out, and (unlike [Forms]) no placeholder stands for them. *)
Theorem assets_list_the_located_elements w st dom rq :
  state (bow w) = Some st ->
  jar.Dom st = Some dom ->
  jar.Request st = Some rq ->
  let base := http.URL_ rq in
  Links lib Text w
  = (Ret (omap (fun n =>
                  (fun u => NewLinkAsset u (attrOrDefault "id" "" [n]) (Text [n]))
                    <$> resolved lib base "href" n)
            (goquery_Find lib dom "a")), w) /\
  Images lib w
  = (Ret (omap (fun n =>
                  (fun u => NewImageAsset u (attrOrDefault "id" "" [n])
                              (attrOrDefault "alt" "" [n])
                              (attrOrDefault "title" "" [n]))
                    <$> resolved lib base "src" n)
            (goquery_Find lib dom "img")), w) /\
  Scripts lib w
  = (Ret (omap (fun n =>
                  (fun u => NewScriptAsset u (attrOrDefault "id" "" [n])
                              (attrOrDefault "type" "text/javascript" [n]))
                    <$> resolved lib base "src" n)
            (goquery_Find lib dom "script")), w).
Proof.
  intros Hs Hd Hr base. subst base. split_and!.
  - unfold Links. collect Hs Hd Hr.
    destruct (goquery.Attr [n] "href") as [src|]; [|by rewrite app_nil_r].
    destruct (url_Parse lib src); [done|by rewrite app_nil_r].
  - unfold Images. collect Hs Hd Hr.
    destruct (goquery.Attr [n] "src") as [src|]; [|by rewrite app_nil_r].
    destruct (url_Parse lib src); [done|by rewrite app_nil_r].
  - unfold Scripts. collect Hs Hd Hr.
    destruct (goquery.Attr [n] "src") as [src|]; [|by rewrite app_nil_r].
    destruct (url_Parse lib src); [done|by rewrite app_nil_r].
Qed.

(** X13.  [Stylesheets] returns an asset only for the [link] elements
    whose [rel] is exactly [stylesheet] and whose [href] is present and
    parses, in document order; a missing [media] reads as [all] and a
    missing [type] as [text/css]. *)
Theorem Stylesheets_lists_the_linked_style_sheets w st dom rq :
  state (bow w) = Some st ->
  jar.Dom st = Some dom ->
  jar.Request st = Some rq ->
  Stylesheets lib w
  = (Ret (omap (fun n =>
                  if bool_decide (goquery.Attr [n] "rel" = Some "stylesheet")
                  then (fun u => NewStylesheetAsset u (attrOrDefault "id" "" [n])
                                   (attrOrDefault "media" "all" [n])
                                   (attrOrDefault "type" "text/css" [n]))
                         <$> resolved lib (http.URL_ rq) "href" n
                  else None)
            (goquery_Find lib dom "link")), w).
Proof.
  intros Hs Hd Hr. unfold Stylesheets. collect Hs Hd Hr.
  destruct (goquery.Attr [n] "rel") as [rel|] eqn:Hrel.
  - destruct (String.eqb rel "stylesheet") eqn:Heq.
    + apply String.eqb_eq in Heq. subst rel.
      rewrite bool_decide_eq_true_2 by done.
      repeat rewrite bind_run. rewrite (attrToResolvedUrl_run _ _ _ _ _ Hs Hr).
      destruct (goquery.Attr [n] "href") as [src|]; [|by rewrite app_nil_r].
      destruct (url_Parse lib src); [done|by rewrite app_nil_r].
    + apply String.eqb_neq in Heq.
      rewrite bool_decide_eq_false_2 by congruence. by rewrite app_nil_r.
  - rewrite bool_decide_eq_false_2 by done. by rewrite app_nil_r.
Qed.


(** X14.  [Click] on a loaded page returns an element-not-found error
    when the expression matches nothing or matches no anchor, an
    attribute-not-found error when the first match has no [href], and
    the parser's error when the [href] does not parse; in all these
    cases nothing is dispatched and the world is unchanged.  Otherwise
    the [Click] event is dispatched with the resolved URL, and whatever
    its handlers answer, an error included, the browser goes on to
    request that URL with the URL of the current page as referer. *)
Theorem Click_fails_early_or_navigates ed expr w st dom rq :
  state (bow w) = Some st ->
  jar.Dom st = Some dom ->
  jar.Request st = Some rq ->
  let sel := goquery_Find lib dom expr in
  (sel = [] ->
   Click lib ed expr w
   = (Ret (Some (ElementNotFound
                   ("Element not found matching expr '" +:+ expr +:+ "'."))), w)) /\
  (sel <> [] -> goquery.Is sel "a" = false ->
   Click lib ed expr w
   = (Ret (Some (ElementNotFound
                   ("Expr '" +:+ expr +:+ "' must match an anchor tag."))), w)) /\
  (sel <> [] -> goquery.Is sel "a" = true -> goquery.Attr sel "href" = None ->
   Click lib ed expr w
   = (Ret (Some (AttributeNotFound "Attribute 'href' not found.")), w)) /\
  (forall src e,
     sel <> [] -> goquery.Is sel "a" = true ->
     goquery.Attr sel "href" = Some src -> url_Parse lib src = inr e ->
     Click lib ed expr w = (Ret (Some e), w)) /\
  (forall src ur answer w1 st1 rq1,
     sel <> [] -> goquery.Is sel "a" = true ->
     goquery.Attr sel "href" = Some src -> url_Parse lib src = inl ur ->
     let href := url_ResolveReference lib (http.URL_ rq) ur in
     doClick ed href w = (Ret answer, w1) ->
     state (bow w1) = Some st1 -> jar.Request st1 = Some rq1 ->
     Click lib ed expr w = httpGET lib ed href (Some (http.URL_ rq1)) w1).
Proof.
  intros Hs Hd Hr sel.
  assert (Hstart : forall (k : goquery.Selection -> M World error),
            (sel' ← Find lib expr; k sel') w = k sel w).
  { intros k. by rewrite bind_run, (Find_run _ _ _ _ Hs Hd). }
  assert (Hlen : sel <> [] -> bool_decide (goquery.Length sel = 0) = false).
  { intros Hne. apply bool_decide_eq_false_2. unfold goquery.Length.
    destruct sel; [done|cbn; lia]. }
  unfold Click. rewrite Hstart. split_and!.
  - intros ->. reflexivity.
  - intros Hne His. by rewrite (Hlen Hne), His.
  - intros Hne His Ha. rewrite (Hlen Hne), His. cbn [negb].
    rewrite bind_run, (attrToResolvedUrl_run _ _ _ _ _ Hs Hr), Ha. reflexivity.
  - intros src e Hne His Ha Hp. rewrite (Hlen Hne), His. cbn [negb].
    by rewrite bind_run, (attrToResolvedUrl_run _ _ _ _ _ Hs Hr), Ha, Hp.
  - intros src ur answer w1 st1 rq1 Hne His Ha Hp. cbv zeta.
    intros Hclick Hs1 Hr1.
    rewrite (Hlen Hne), His. cbn [negb].
    rewrite bind_run, (attrToResolvedUrl_run _ _ _ _ _ Hs Hr), Ha, Hp.
    rewrite (bind_ret_run _ _ _ _ _ Hclick).
    by rewrite bind_run, (Url_run w1 st1 rq1 Hs1 Hr1).
Qed.

(** X15.  Before a page is loaded, while [bow.state] is nil, every method
    that reads the page panics on the nil dereference and changes
    nothing: [Url], [StatusCode], [ResponseHeaders], [Find], [Forms],
    [Form], [Click], [Links], [Images], [Stylesheets], [Scripts],
    [ResolveUrl] and [Reload]. *)
Theorem page_methods_panic_before_a_page_is_loaded ed expr u w :
  state (bow w) = None ->
  Url w = (Panic nil_deref, w) /\
  StatusCode w = (Panic nil_deref, w) /\
  ResponseHeaders w = (Panic nil_deref, w) /\
  Find lib expr w = (Panic nil_deref, w) /\
  Forms lib ed w = (Panic nil_deref, w) /\
  Form_ lib ed expr w = (Panic nil_deref, w) /\
  Click lib ed expr w = (Panic nil_deref, w) /\
  Links lib Text w = (Panic nil_deref, w) /\
  Images lib w = (Panic nil_deref, w) /\
  Stylesheets lib w = (Panic nil_deref, w) /\
  Scripts lib w = (Panic nil_deref, w) /\
  ResolveUrl lib u w = (Panic nil_deref, w) /\
  Reload lib ed w = (Panic nil_deref, w).
Proof.
  intros Hs.
  assert (Hfind : forall e, Find lib e w = (Panic nil_deref, w))
    by (intros e; unfold Find; by rewrite Hs).
  assert (Hurl : Url w = (Panic nil_deref, w)) by (unfold Url; by rewrite Hs).
  unfold StatusCode, ResponseHeaders, Forms, Form_, Click, Links, Images,
    Stylesheets, Scripts, ResolveUrl, Reload.
  rewrite !(bind_panic_run _ _ _ _ _ (Hfind _)), (bind_panic_run _ _ _ _ _ Hurl).
  rewrite Hs, bind_run. cbn [get]. rewrite Hs. split_and!; auto.
Qed.

End PageFacts.

Section AfterNavigation.
Context (lib : Collaborators).
Implicit Types (w : World) (ed : Dispatcher World Value) (req : http.Request).


(** X17.  [handleMetaRefresh] arms a timer exactly when refresh handling is
    on and the page has a refresh directive whose delay parses: the new
    timer runs for the parsed duration and becomes the browser's timer.
    It stops no timer itself, so a timer that was pending stays pending
    beside the new one.  With refresh handling off nothing happens, not
    even on a browser without page. *)
Theorem handleMetaRefresh_arms_the_parsed_delay w st dom attr dur :
  state (bow w) = Some st ->
  jar.Dom st = Some dom ->
  attribute w MetaRefreshHandling = true ->
  goquery.Attr (goquery_Find lib dom "meta[http-equiv='refresh']") "content"
  = Some attr ->
  time_ParseDuration lib (attr +:+ "s") = Some dur ->
  (exists w',
     handleMetaRefresh lib w = (Ret tt, w') /\
     timers w' = timers w ++ [time.Armed dur] /\
     refresh (bow w') = Some (length (timers w)) /\
     pending w' = S (pending w) /\
     state (bow w') = state (bow w) /\ history (bow w') = history (bow w) /\
     heap w' = heap w /\ net w' = net w) /\
  (forall w0, attribute w0 MetaRefreshHandling = false ->
              handleMetaRefresh lib w0 = (Ret tt, w0)) /\
  (forall w0 st0 dom0,
     state (bow w0) = Some st0 -> jar.Dom st0 = Some dom0 ->
     goquery_Find lib dom0 "meta[http-equiv='refresh']" = [] ->
     handleMetaRefresh lib w0 = (Ret tt, w0)).
Proof.
  intros Hs Hd Hattr Ha Hp. split_and!.
  - unfold handleMetaRefresh. rewrite bind_run. cbn [get]. rewrite Hattr.
    rewrite bind_run, (Find_run lib _ w st dom Hs Hd).
    rewrite bool_decide_eq_true_2, Ha, Hp.
    2:{ unfold goquery.Length.
        destruct (goquery_Find lib dom "meta[http-equiv='refresh']"); [done|cbn; lia]. }
    rewrite bind_run.
    destruct (logDebug_run "Creating %d second timer for meta refresh."
                [LDuration dur] w) as (w0 & -> & Hb & Hh & Ht & Hn & _).
    rewrite bind_run. cbn [NewTimer modify].
    eexists. split; [reflexivity|]. unfold pending. cbn.
    rewrite Hb, Hh, Ht, Hn, List.filter_app, length_app. cbn.
    split_and!; auto. lia.
  - intros w0 H0. unfold handleMetaRefresh. rewrite bind_run. cbn [get].
    by rewrite H0.
  - intros w0 st0 dom0 Hs0 Hd0 Hnone. unfold handleMetaRefresh.
    rewrite bind_run. cbn [get].
    destruct (attribute w0 MetaRefreshHandling); [|done].
    by rewrite bind_run, (Find_run lib _ w0 st0 dom0 Hs0 Hd0), Hnone.
Qed.

End AfterNavigation.

(** ** Logging *)

(** X18.  With a logger set, a debug line is written at every level from
    [LogLevelDebug] up, an info line from [LogLevelInfo] up and an error
    line only at [LogLevelError] and above: whenever an error is written
    so are info and debug lines, and a logger at [LogLevelDebug] writes
    debug lines but no errors.  Without logger nothing is written. *)
Theorem log_lines_by_level (w : World) (msg : string) (a : list LogArg)
        (e : Error) :
  let writes {A} (c : M World A) := trace (snd (c w)) <> trace w in
  (writes (logDebug msg a)
   <-> logger (bow w) <> None /\ (LogLevelDebug <= logLevel (bow w))%Z) /\
  (writes (logInfo msg a)
   <-> logger (bow w) <> None /\ (LogLevelInfo <= logLevel (bow w))%Z) /\
  (writes (logError e)
   <-> logger (bow w) <> None /\ (LogLevelError <= logLevel (bow w))%Z) /\
  (writes (logError e) -> writes (logInfo msg a) /\ writes (logDebug msg a)) /\
  (logger (bow w) <> None -> logLevel (bow w) = LogLevelDebug ->
   writes (logDebug msg a) /\ ~ writes (logInfo msg a) /\ ~ writes (logError e)) /\
  fst (logError e w) = Ret (Some e).
Proof.
  intros writes.
  assert (Hgrow : forall ev, trace w ++ [ev] <> trace w).
  { intros ev H. apply (f_equal length) in H. rewrite length_app in H. cbn in H. lia. }
  assert (Hd : writes _ (logDebug msg a)
               <-> logger (bow w) <> None /\ (LogLevelDebug <= logLevel (bow w))%Z).
  { unfold writes, logDebug. destruct (decide (logger (bow w) = None)) as [Hl|Hl].
    - rewrite bool_decide_eq_false_2 by auto. cbn. tauto.
    - rewrite bool_decide_eq_true_2 by auto. cbn.
      destruct (Z.leb_spec LogLevelDebug (logLevel (bow w))); cbn.
      + split; [auto|]. intros _. apply Hgrow.
      + split; [done|]. lia. }
  assert (Hi : writes _ (logInfo msg a)
               <-> logger (bow w) <> None /\ (LogLevelInfo <= logLevel (bow w))%Z).
  { unfold writes, logInfo. destruct (decide (logger (bow w) = None)) as [Hl|Hl].
    - rewrite bool_decide_eq_false_2 by auto. cbn. tauto.
    - rewrite bool_decide_eq_true_2 by auto. cbn.
      destruct (Z.leb_spec LogLevelInfo (logLevel (bow w))); cbn.
      + split; [auto|]. intros _. apply Hgrow.
      + split; [done|]. lia. }
  assert (He : writes _ (logError e)
               <-> logger (bow w) <> None /\ (LogLevelError <= logLevel (bow w))%Z).
  { unfold writes, logError. destruct (decide (logger (bow w) = None)) as [Hl|Hl].
    - rewrite bool_decide_eq_false_2 by auto. cbn. tauto.
    - rewrite bool_decide_eq_true_2 by auto. cbn.
      destruct (Z.leb_spec LogLevelError (logLevel (bow w))); cbn.
      + split; [auto|]. intros _. apply Hgrow.
      + split; [done|]. lia. }
  split_and!; auto.
  - rewrite He, Hi, Hd. unfold LogLevelError, LogLevelInfo, LogLevelDebug.
    intuition lia.
  - intros Hl Hlev. rewrite He, Hi, Hd, Hlev.
    unfold LogLevelError, LogLevelInfo, LogLevelDebug. intuition lia.
  - unfold logError. by destruct (_ && _).
Qed.

(** ** A new browser *)

Section NewBrowserFacts.
Context (lib : Collaborators).
Implicit Types (w : World) (ed : Dispatcher World Value) (req : http.Request).

Lemma committed_frame req resp dom w2 :
  heap (committed lib req resp dom w2) = heap w2 /\
  net (committed lib req resp dom w2) = net w2 /\
  sends (trace (committed lib req resp dom w2)) = sends (trace w2).
Proof.
  unfold committed.
  destruct (logInfo_run "Received %d response." [LInt (http.StatusCode resp)] w2)
    as (w0 & -> & Hl). cbn [snd].
  pose proof (logs_only_sends _ _ Hl) as Hs0.
  destruct Hl as (_ & Hh0 & _ & Hn0 & _).
  destruct (commit_run lib req resp dom w0)
    as (w' & -> & _ & _ & _ & _ & Hh & Hn & Hs & _). cbn [snd].
  split_and!; congruence.
Qed.

(** X19.  The browser [NewBrowser] returns is ready to navigate: [Open]
    with a URL that parses, answered by a page that parses, sends one GET
    request for it whose only header is the [User-Agent] of the browser,
    consumes that answer, makes the page the current state and pushes
    the nil state the browser started with, so that the history is
    [[nil]]; the recorder, the only handler the browser comes with, is
    then dispatched [PostRequest] in that world. *)
Theorem Open_on_a_new_browser ua rj resp rest u u' dom :
  url_Parse lib u = inl u' ->
  url_Parse lib u' = inl u' ->
  goquery_NewDocumentFromResponse lib resp = inl dom ->
  let ed := fst (NewBrowser ua rj (ReplyPage resp :: rest)) in
  let w0 := snd (NewBrowser ua rj (ReplyPage resp :: rest)) in
  let req := {| http.Method := "GET"; http.URL_ := u';
                http.Header_ := Some 0; http.Body := None |} in
  let sent := add_value "User-Agent" ua ∅ in
  exists w3,
    Open lib ed u w0 =
    (err ← doPostRequest ed resp;
     match err with
     | Some e => logError e
     | None => mret None
     end) w3 /\
    bound ed PreRequest = [] /\
    bound ed PostRequest = [fun e sender args => HandleEvent rj e sender args] /\
    state (bow w3) = Some (jar.NewHistoryState req resp dom) /\
    history (bow w3) = [None] /\
    heap w3 !! 0 = Some sent /\
    sends (trace w3) = [ESend req (Some sent)] /\
    net w3 = rest.
Proof.
  intros Hp Hp' Hdom ed w0 req sent.
  set (w1 := {| bow := bow w0; heap := [sent; ∅]; timers := []; net := net w0;
                trace := [] |}).
  set (w2 := {| bow := bow w0; heap := [sent; ∅]; timers := []; net := rest;
                trace := [ESend req (Some sent)] |}).
  assert (Hbuild : buildRequest lib "GET" u' None w0 = (Ret (inl req), w1)).
  { unfold buildRequest, NewRequest. rewrite Hp'.
    unfold mbind, M_bind, bind, mret, M_ret, ret, get, Header_Add, logDebug.
    reflexivity. }
  assert (H1 : doPreRequest ed req w1 = (Ret None, w1)) by reflexivity.
  assert (H2 : contact_transport req w1 = (Ret (inl resp), w2)) by reflexivity.
  exists (committed lib req resp dom w2). split.
  - unfold Open. rewrite Hp. unfold httpGET.
    rewrite (bind_ret_run _ _ _ _ _ Hbuild).
    apply (httpRequest_committed lib ed req w1 w1 resp w2 dom H1 H2 Hdom).
  - destruct (committed_session lib req resp dom w2) as [Hs Hh].
    destruct (committed_frame req resp dom w2) as (Hheap & Hnet & Hsends).
    rewrite Hs, Hh, Hheap, Hnet, Hsends. split_and!; reflexivity.
Qed.

End NewBrowserFacts.

(** ** The further properties at work *)

Lemma demo_handlers_keep_session :
  Forall keeps_session (bound demo.dispatcher PreRequest) /\
  Forall keeps_session (bound demo.dispatcher PostRequest).
Proof.
  split; [vm_compute; constructor|].
  change (bound demo.dispatcher PostRequest)
    with [fun e s a => HandleEvent demo.recorder e s a].
  constructor; [|constructor]. intros e s a w0. split; reflexivity.
Defined.

Lemma transport_error_commits_nothing_witness :
  doPreRequest demo.dispatcher demo.home demo.unreachable
  = (Ret None, demo.unreachable) /\
  fst (httpRequest demo.lib demo.dispatcher demo.home demo.unreachable)
  = Ret (Some (UrlError "GET" "http://a/" (TransportFailure "connection refused"))) /\
  bow (snd (httpRequest demo.lib demo.dispatcher demo.home demo.unreachable))
  = bow demo.unreachable.
Proof.
  assert (H1 : doPreRequest demo.dispatcher demo.home demo.unreachable
               = (Ret None, demo.unreachable)) by (vm_compute; reflexivity).
  assert (H2 : contact_transport demo.home demo.unreachable
               = (Ret (inr (UrlError "GET" "http://a/"
                              (TransportFailure "connection refused"))),
                  snd (contact_transport demo.home demo.unreachable)))
    by (vm_compute; reflexivity).
  destruct (transport_error_commits_nothing demo.lib _ _ _ _ _ _ H1 H2)
    as (Hr & _ & Hb & _).
  split_and!; [exact H1|exact Hr|exact Hb].
Defined.

Lemma parse_error_commits_nothing_witness :
  doPreRequest demo.dispatcher demo.home demo.garbled = (Ret None, demo.garbled) /\
  goquery_NewDocumentFromResponse demo.picky (demo.response "garbage")
  = inr (TransportFailure "unexpected EOF") /\
  fst (httpRequest demo.picky demo.dispatcher demo.home demo.garbled)
  = Ret (Some (TransportFailure "unexpected EOF")) /\
  history (bow (snd (httpRequest demo.picky demo.dispatcher demo.home demo.garbled)))
  = history (bow demo.garbled).
Proof.
  assert (H1 : doPreRequest demo.dispatcher demo.home demo.garbled
               = (Ret None, demo.garbled)) by (vm_compute; reflexivity).
  assert (H2 : contact_transport demo.home demo.garbled
               = (Ret (inl (demo.response "garbage")),
                  snd (contact_transport demo.home demo.garbled)))
    by (vm_compute; reflexivity).
  assert (H3 : goquery_NewDocumentFromResponse demo.picky (demo.response "garbage")
               = inr (TransportFailure "unexpected EOF")) by reflexivity.
  destruct (parse_error_commits_nothing demo.picky _ _ _ _ _ _ _ H1 H2 H3)
    as (Hr & _ & _ & Hh & _).
  split_and!; [exact H1|exact H3|exact Hr|exact Hh].
Defined.

Lemma Reload_pushes_the_page_it_reloads_witness :
  state (bow demo.refreshing)
  = Some (jar.NewHistoryState demo.home (demo.response "refresh")
            (demo.page "refresh")) /\
  Reload demo.lib demo.dispatcher demo.refreshing
  = (Ret None, snd (Reload demo.lib demo.dispatcher demo.refreshing)) /\
  jar.Len (history (bow (snd (Reload demo.lib demo.dispatcher demo.refreshing))))
  = S (jar.Len (history (bow demo.refreshing))).
Proof.
  assert (Hs : state (bow demo.refreshing)
               = Some (jar.NewHistoryState demo.home (demo.response "refresh")
                         (demo.page "refresh"))) by (vm_compute; reflexivity).
  assert (Hrun : Reload demo.lib demo.dispatcher demo.refreshing
                 = (Ret None, snd (Reload demo.lib demo.dispatcher demo.refreshing)))
    by (vm_compute; reflexivity).
  destruct demo_handlers_keep_session as [Hpre Hpost].
  destruct (Reload_pushes_the_page_it_reloads demo.lib _ _ _ _ _ Hpre Hpost Hs
              eq_refl Hrun) as (_ & Hlen & _).
  split_and!; [exact Hs|exact Hrun|exact Hlen].
Defined.

Lemma Back_undoes_a_navigation_witness :
  httpRequest demo.lib demo.dispatcher demo.next demo.refreshing
  = (Ret None, snd (httpRequest demo.lib demo.dispatcher demo.next demo.refreshing)) /\
  history (bow demo.refreshing) <> [] /\
  loaded (state (bow demo.refreshing)) /\
  state (bow (snd (Back (snd (httpRequest demo.lib demo.dispatcher demo.next
                                demo.refreshing)))))
  = state (bow demo.refreshing).
Proof.
  assert (Hrun : httpRequest demo.lib demo.dispatcher demo.next demo.refreshing
                 = (Ret None, snd (httpRequest demo.lib demo.dispatcher demo.next
                                     demo.refreshing)))
    by (vm_compute; reflexivity).
  assert (Hne : history (bow demo.refreshing) <> []) by (vm_compute; discriminate).
  assert (Hld : loaded (state (bow demo.refreshing))).
  { eexists _, _. split; vm_compute; reflexivity. }
  destruct demo_handlers_keep_session as [Hpre Hpost].
  destruct (proj1 (Back_undoes_a_navigation demo.lib _ _ _ _ Hpre Hpost Hrun) Hne Hld)
    as (_ & Hs & _).
  split_and!; [exact Hrun|exact Hne|exact Hld|exact Hs].
Defined.

Lemma navigation_keeps_well_formed_witness :
  well_formed demo.one_page /\
  well_formed (snd (httpRequest demo.lib demo.dispatcher demo.home demo.one_page)).
Proof.
  assert (Hwf : well_formed demo.one_page).
  { split; [done|]. intros [|i] p Hp; done. }
  destruct demo_handlers_keep_session as [Hpre Hpost].
  split; [exact Hwf|].
  exact (proj1 (navigation_keeps_well_formed demo.lib demo.dispatcher demo.home
                  demo.one_page Hpre Hpost Hwf)).
Defined.

Lemma nil_headers_jar_panics_witness :
  headers (bow demo.bare) = None /\
  url_Parse demo.lib "http://a/" = inl "http://a/" /\
  fst (Open demo.lib demo.dispatcher "http://a/" demo.bare) = Panic nil_map_write.
Proof.
  split_and!; [reflexivity..|].
  destruct (nil_headers_jar_panics demo.lib demo.dispatcher "http://a/" None "" None
              demo.bare "http://a/" eq_refl eq_refl eq_refl)
    as (_ & _ & _ & Hopen & _).
  exact Hopen.
Defined.

Lemma unparsable_url_changes_nothing_witness :
  url_Parse demo.lib "" = inr (InvalidURL "empty url") /\
  Open demo.lib demo.dispatcher "" demo.one_page
  = (Ret (Some (InvalidURL "empty url")), demo.one_page).
Proof.
  split; [reflexivity|].
  exact (proj1 (unparsable_url_changes_nothing demo.lib demo.dispatcher "" None ∅
                  "" None (InvalidURL "empty url") demo.one_page eq_refl)).
Defined.

Lemma Referer_is_added_only_with_a_referer_witness :
  url_Parse demo.lib "http://a/" = inl "http://a/" /\
  headers (bow (demo.world [])) = Some 0 /\
  heap (demo.world []) !! 0 = Some ∅ /\
  exists w' sent,
    buildRequest demo.lib "GET" "http://a/" (Some "http://b/") (demo.world [])
    = (Ret (inl demo.home), w') /\
    values sent "Referer" = ["http://b/"].
Proof.
  split_and!; [reflexivity..|].
  destruct (Referer_is_added_only_with_a_referer demo.lib "GET" "http://a/"
              (Some "http://b/") (demo.world []) 0 ∅ "http://a/"
              eq_refl eq_refl eq_refl)
    as (w' & sent & Hrun & _ & Hv & _).
  exists w', sent. split; [exact Hrun|exact Hv].
Defined.

Lemma assets_list_the_located_elements_witness :
  state (bow demo.on_gallery)
  = Some (jar.NewHistoryState demo.home (demo.response "") demo.gallery) /\
  fst (Images demo.lib demo.on_gallery)
  = Ret [NewImageAsset "/i.png" "" "picture" ""] /\
  fst (Links demo.lib demo.text demo.on_gallery)
  = Ret [NewLinkAsset "/x" "first" ""].
Proof.
  destruct (assets_list_the_located_elements demo.lib demo.text demo.on_gallery
              _ _ _ eq_refl eq_refl eq_refl) as (Hl & Hi & _).
  split_and!; [reflexivity|by rewrite Hi|by rewrite Hl].
Defined.

Lemma Stylesheets_lists_the_linked_style_sheets_witness :
  state (bow demo.on_gallery)
  = Some (jar.NewHistoryState demo.home (demo.response "") demo.gallery) /\
  fst (Stylesheets demo.lib demo.on_gallery)
  = Ret [NewStylesheetAsset "/s.css" "" "all" "text/css"].
Proof.
  split; [reflexivity|].
  by rewrite (Stylesheets_lists_the_linked_style_sheets demo.lib demo.on_gallery
                _ _ _ eq_refl eq_refl eq_refl).
Defined.

Lemma Click_fails_early_or_navigates_witness :
  state (bow demo.on_gallery)
  = Some (jar.NewHistoryState demo.home (demo.response "") demo.gallery) /\
  Click demo.lib demo.dispatcher "img" demo.on_gallery
  = (Ret (Some (ElementNotFound "Expr 'img' must match an anchor tag.")),
     demo.on_gallery) /\
  Click demo.lib demo.dispatcher "a" demo.on_gallery
  = httpGET demo.lib demo.dispatcher "/x" (Some "http://a/") demo.on_gallery.
Proof.
  assert (Hs : state (bow demo.on_gallery)
               = Some (jar.NewHistoryState demo.home (demo.response "")
                         demo.gallery)) by reflexivity.
  assert (Himg_ne : goquery_Find demo.lib demo.gallery "img" <> [])
    by (vm_compute; discriminate).
  assert (Himg_is : goquery.Is (goquery_Find demo.lib demo.gallery "img") "a" = false)
    by (vm_compute; reflexivity).
  assert (Ha_ne : goquery_Find demo.lib demo.gallery "a" <> [])
    by (vm_compute; discriminate).
  assert (Ha_is : goquery.Is (goquery_Find demo.lib demo.gallery "a") "a" = true)
    by (vm_compute; reflexivity).
  assert (Ha_href : goquery.Attr (goquery_Find demo.lib demo.gallery "a") "href"
                    = Some "/x") by (vm_compute; reflexivity).
  assert (Ha_parse : url_Parse demo.lib "/x" = inl "/x") by reflexivity.
  assert (Hclick : doClick demo.dispatcher
                     (url_ResolveReference demo.lib (http.URL_ demo.home) "/x")
                     demo.on_gallery
                   = (Ret None, demo.on_gallery)) by (vm_compute; reflexivity).
  destruct (Click_fails_early_or_navigates demo.lib demo.dispatcher "img"
              demo.on_gallery _ demo.gallery demo.home Hs eq_refl eq_refl)
    as (_ & Himg & _).
  destruct (Click_fails_early_or_navigates demo.lib demo.dispatcher "a"
              demo.on_gallery _ demo.gallery demo.home Hs eq_refl eq_refl)
    as (_ & _ & _ & _ & Ha).
  split_and!; [exact Hs|exact (Himg Himg_ne Himg_is)|].
  exact (Ha "/x" "/x" None demo.on_gallery _ demo.home Ha_ne Ha_is Ha_href
           Ha_parse Hclick Hs eq_refl).
Defined.

Lemma page_methods_panic_before_a_page_is_loaded_witness :
  state (bow (demo.world [])) = None /\
  Forms demo.lib demo.dispatcher (demo.world []) = (Panic nil_deref, demo.world []).
Proof.
  split; [reflexivity|].
  destruct (page_methods_panic_before_a_page_is_loaded demo.lib demo.text
              demo.dispatcher "form" "/" (demo.world []) eq_refl)
    as (_ & _ & _ & _ & Hforms & _).
  exact Hforms.
Defined.


Lemma handleMetaRefresh_arms_the_parsed_delay_witness :
  attribute demo.refreshing MetaRefreshHandling = true /\
  exists w',
    handleMetaRefresh demo.lib demo.refreshing = (Ret tt, w') /\
    timers w' = timers demo.refreshing ++ [time.Armed 2000000000] /\
    pending w' = S (pending demo.refreshing).
Proof.
  assert (Ha : attribute demo.refreshing MetaRefreshHandling = true)
    by (vm_compute; reflexivity).
  assert (Hs : state (bow demo.refreshing)
               = Some (jar.NewHistoryState demo.home (demo.response "refresh")
                         (demo.page "refresh"))) by (vm_compute; reflexivity).
  split; [exact Ha|].
  destruct (proj1 (handleMetaRefresh_arms_the_parsed_delay demo.lib demo.refreshing
                     _ _ "2" 2000000000%Z Hs eq_refl Ha eq_refl eq_refl))
    as (w' & Hrun & Ht & _ & Hp & _).
  exists w'. split_and!; [exact Hrun|exact Ht|exact Hp].
Defined.

Lemma log_lines_by_level_witness :
  logger (bow demo.logging) <> None /\
  logLevel (bow demo.logging) = LogLevelDebug /\
  trace (snd (logDebug "x" [] demo.logging)) <> trace demo.logging /\
  ~ trace (snd (logError (InvalidURL "x") demo.logging)) <> trace demo.logging.
Proof.
  assert (Hl : logger (bow demo.logging) <> None) by discriminate.
  assert (Hlev : logLevel (bow demo.logging) = LogLevelDebug) by reflexivity.
  destruct (log_lines_by_level demo.logging "x" [] (InvalidURL "x"))
    as (_ & _ & _ & _ & Hdebug & _).
  destruct (Hdebug Hl Hlev) as (Hd & _ & He).
  split_and!; [exact Hl|exact Hlev|exact Hd|exact He].
Defined.

Lemma Open_on_a_new_browser_witness :
  url_Parse demo.lib "http://a/" = inl "http://a/" /\
  goquery_NewDocumentFromResponse demo.lib (demo.response "forms")
  = inl (demo.page "forms") /\
  exists w3,
    Open demo.lib demo.dispatcher "http://a/" demo.one_page
    = (err ← doPostRequest demo.dispatcher (demo.response "forms");
       match err with
       | Some e => logError e
       | None => mret None
       end) w3 /\
    history (bow w3) = [None].
Proof.
  split_and!; [reflexivity..|].
  destruct (Open_on_a_new_browser demo.lib "surf" demo.recorder
              (demo.response "forms") [] "http://a/" "http://a/" (demo.page "forms")
              eq_refl eq_refl eq_refl)
    as (w3 & Hrun & _ & _ & _ & Hh & _).
  exists w3. split; [exact Hrun|exact Hh].
Defined.
